(** * Credential router of the SSI service: request handling and query dispatch

    Shallow embedding of [pkg/server/router/credential.go] together with
    the statements of its specification.

    The handlers of the router are effectful Go functions: they call the
    Credential Service, write to the process-wide logger and write an HTTP
    response.  They are embedded as computations in a small state monad
    over a [World] that holds the state of the service, the sequence of
    service calls made so far, the log and the response writer. *)

From Stdlib Require Import ZArith Ascii String.
From stdpp Require Import base option list strings gmap.

#[local] Set Warnings "-register-all".
Local Open Scope Z_scope.
Local Open Scope string_scope.

(** ** Go's [error] values

    [errors.New] and [errors.Wrap] come from [github.com/pkg/errors];
    [RequestError] is the error value built by the framework package. A
    [nil] error is [None] in [option error]. *)
Module errors.

Inductive error : Type :=
| New (message : string)
| Wrap (err : error) (message : string)
| RequestError (Err : error) (Status : Z).

(** The [Error() string] method. *)
Fixpoint Error (e : error) : string :=
  match e with
  | New message => message
  | Wrap err message => message +:+ ": " +:+ Error err
  | RequestError Err _ => Error Err
  end.

(** The status a request error carries, if the value is one. *)
Definition StatusOf (e : error) : option Z :=
  match e with
  | RequestError _ Status => Some Status
  | _ => None
  end.

End errors.
Export errors (error).

(** ** Status codes of [net/http] used by the router *)
Module http.
Definition StatusOK : Z := 200.
Definition StatusCreated : Z := 201.
Definition StatusBadRequest : Z := 400.
Definition StatusInternalServerError : Z := 500.
End http.

(** ** Dynamically typed claim values ([interface{}] after JSON decoding) *)
Module json.
Inductive Value : Type :=
| Null
| Bool (b : bool)
| Number (literal : string)
| Str (s : string)
| Array (elems : list Value)
| Object (members : list (string * Value)).
End json.

(** ** [credsdk.VerifiableCredential]

    Every Go struct is a module holding a record [t], so that fields keep
    their names.  The credential is opaque to the router, which only reads
    [ID]. *)
Module credsdk.
Module VerifiableCredential.
Record t : Type := {
  Context : json.Value;
  ID : string;
  Issuer : string;
  IssuanceDate : string;
  ExpirationDate : string;
  CredentialSubject : gmap string json.Value;
  CredentialSchema : string
}.
End VerifiableCredential.
End credsdk.

(** ** The Credential Service, as the router uses it

    Request and response types carry the fields the router reads and
    writes. *)
Module credential.

Module CreateCredentialRequest.
Record t : Type := {
  Issuer : string;
  Subject : string;
  Context : string;
  JSONSchema : string;
  Data : option (gmap string json.Value);  (* [None] is the nil map *)
  Expiry : string
}.
End CreateCredentialRequest.

Module CreateCredentialResponse.
Record t : Type := { Credential : credsdk.VerifiableCredential.t }.
End CreateCredentialResponse.

Module GetCredentialRequest.
Record t : Type := { ID : string }.
End GetCredentialRequest.

Module GetCredentialResponse.
Record t : Type := { Credential : credsdk.VerifiableCredential.t }.
End GetCredentialResponse.

Module GetCredentialByIssuerRequest.
Record t : Type := { Issuer : string }.
End GetCredentialByIssuerRequest.

Module GetCredentialBySubjectRequest.
Record t : Type := { Subject : string }.
End GetCredentialBySubjectRequest.

Module GetCredentialBySchemaRequest.
Record t : Type := { Schema : string }.
End GetCredentialBySchemaRequest.

Module GetCredentialsResponse.
Record t : Type := { Credentials : list credsdk.VerifiableCredential.t }.
End GetCredentialsResponse.

Module DeleteCredentialRequest.
Record t : Type := { ID : string }.
End DeleteCredentialRequest.

(** Modelled from the spec: the methods of [credential.Service], which
    is not part of the router's file.  Each method returns either an
    error or its result (the router dereferences the result whenever the
    error is [nil]) and may change the state [S] the service owns. *)
Record Service (S : Type) : Type := {
  CreateCredential :
    CreateCredentialRequest.t -> S ->
    (error + CreateCredentialResponse.t) * S;
  GetCredential :
    GetCredentialRequest.t -> S -> (error + GetCredentialResponse.t) * S;
  GetCredentialsByIssuer :
    GetCredentialByIssuerRequest.t -> S ->
    (error + GetCredentialsResponse.t) * S;
  GetCredentialsBySubject :
    GetCredentialBySubjectRequest.t -> S ->
    (error + GetCredentialsResponse.t) * S;
  GetCredentialsBySchema :
    GetCredentialBySchemaRequest.t -> S ->
    (error + GetCredentialsResponse.t) * S;
  DeleteCredential :
    DeleteCredentialRequest.t -> S -> option error * S
}.
Arguments CreateCredential {S}.
Arguments GetCredential {S}.
Arguments GetCredentialsByIssuer {S}.
Arguments GetCredentialsBySubject {S}.
Arguments GetCredentialsBySchema {S}.
Arguments DeleteCredential {S}.

End credential.

(** ** The global logger ([logrus]) *)
Module logrus.
(** One entry at error level: [logrus.WithError(err).Error(msg)], or
    [logrus.Error(msg)] when [WithError] is [None]. *)
Record Entry : Type := { WithError : option error; Message : string }.
End logrus.

(** ** The transport framework *)
Module framework.

(** Path parameters of the matched route travel in the context. *)
Record Context : Type := { Params : gmap string string }.

(** The request: its URL query and its body. *)
Record Request : Type := { Query : gmap string string; Body : string }.

(** What has been written to the response, oldest first: status code and
    payload. *)
Definition ResponseWriter (P : Type) : Type := list (Z * P).

(** Modelled from the spec: [framework.GetParam], the
    "parameter-extraction step returning an optional string" for path
    parameters; [None] is Go's [nil]. *)
Definition GetParam (ctx : Context) (param : string) : option string :=
  Params ctx !! param.

(** Modelled from the spec: [framework.GetQueryValue], the
    "parameter-extraction step returning an optional string" for query
    parameters. *)
Definition GetQueryValue (r : Request) (param : string) : option string :=
  Query r !! param.

(** Modelled from the spec: [framework.Decode], "a decode step that
    parses and structurally validates a request body into the wire
    request shape, failing with a reportable error".  [unmarshal] stands
    for the JSON decoder and [validate] for the check of the target
    type's [validate] tags. *)
Definition Decode {A : Type} (unmarshal : string -> error + A)
    (validate : A -> option error) (r : Request) : error + A :=
  match unmarshal (Body r) with
  | inl err => inl err
  | inr val =>
      match validate val with
      | Some err => inl err
      | None => inr val
      end
  end.

(** Modelled from the spec: [framework.NewRequestError] and
    [framework.NewRequestErrorMsg] build the error kinds [BadRequest]
    and [Internal], an error together with its status code. *)
Definition NewRequestError (err : error) (statusCode : Z) : error :=
  errors.RequestError err statusCode.

Definition NewRequestErrorMsg (msg : string) (statusCode : Z) : error :=
  errors.RequestError (errors.New msg) statusCode.

(** Modelled from the spec: the type of [framework.Respond], "a
    response-writing step accepting a payload and a status code".  From
    the context, the writer, the payload and the status code it gives the
    error it returns and the writer it leaves.  The function is not part
    of the router's file and the spec does not say when it fails: the
    handlers take it as a parameter. *)
Definition RespondStep (P : Type) : Type :=
  Context -> ResponseWriter P -> P -> Z -> option error * ResponseWriter P.

End framework.

(** ** The service framework: the interface every service implements *)
Module svcframework.

(** Modelled from the spec: a non-nil value of the interface
    [svcframework.Service], which is not part of the router's file.  Its
    dynamic type is either the pointer to [credential.Service], and the
    value is then that pointer, [None] when it is the [nil] pointer, or
    the type of another service, of which the router only uses what
    [Type()] prints.  The [nil] interface is [None] in [option]. *)
Inductive Service (S : Type) : Type :=
| Credential (pointer : option (credential.Service S))
| Other (type : string).
Arguments Credential {S}.
Arguments Other {S}.

End svcframework.

(** ** The router: [pkg/server/router/credential.go] *)
Module router.

Definition IssuerParam : string := "issuer".
Definition SubjectParam : string := "subject".
Definition SchemaParam : string := "schema".

(** Modelled from the spec: [IDParam] is declared in another file of the
    package; the route is [/v1/credentials/{id}]. *)
Definition IDParam : string := "id".

Module CreateCredentialRequest.
Record t : Type := {
  Issuer : string;   (* validate:"required" *)
  Subject : string;  (* validate:"required" *)
  Context : string;
  Schema : string;
  Data : option (gmap string json.Value);  (* validate:"required" *)
  Expiry : string
}.

Definition ToServiceRequest (c : t) : credential.CreateCredentialRequest.t :=
  {| credential.CreateCredentialRequest.Issuer := Issuer c;
     credential.CreateCredentialRequest.Subject := Subject c;
     credential.CreateCredentialRequest.Context := Context c;
     credential.CreateCredentialRequest.JSONSchema := Schema c;
     credential.CreateCredentialRequest.Data := Data c;
     credential.CreateCredentialRequest.Expiry := Expiry c |}.

Definition requiredTagError (field : string) : error :=
  errors.New
    ("Field validation for '" +:+ field +:+ "' failed on the 'required' tag").

(** The [validate:"required"] tags of the struct: a required field
    must not hold the zero value of its type (the empty string, the
    [nil] map). *)
Definition Validate (c : t) : option error :=
  if decide (Issuer c = "") then Some (requiredTagError "Issuer")
  else if decide (Subject c = "") then Some (requiredTagError "Subject")
  else match Data c with
       | None => Some (requiredTagError "Data")
       | Some _ => None
       end.
End CreateCredentialRequest.

Module CreateCredentialResponse.
Record t : Type := { Credential : credsdk.VerifiableCredential.t }.
End CreateCredentialResponse.

Module GetCredentialResponse.
Record t : Type := {
  ID : string;
  Credential : credsdk.VerifiableCredential.t
}.
End GetCredentialResponse.

Module GetCredentialsResponse.
Record t : Type := { Credentials : list credsdk.VerifiableCredential.t }.
End GetCredentialsResponse.

(** The [interface{}] payloads the router hands to [framework.Respond]. *)
Inductive Payload : Type :=
| CreateCredentialPayload (resp : CreateCredentialResponse.t)
| GetCredentialPayload (resp : GetCredentialResponse.t)
| GetCredentialsPayload (resp : GetCredentialsResponse.t)
| NilPayload.

(** A call of a method of the Credential Service, with its argument. *)
Inductive Call : Type :=
| CallCreateCredential (req : credential.CreateCredentialRequest.t)
| CallGetCredential (req : credential.GetCredentialRequest.t)
| CallGetCredentialsByIssuer (req : credential.GetCredentialByIssuerRequest.t)
| CallGetCredentialsBySubject (req : credential.GetCredentialBySubjectRequest.t)
| CallGetCredentialsBySchema (req : credential.GetCredentialBySchemaRequest.t)
| CallDeleteCredential (req : credential.DeleteCredentialRequest.t).

(** [p != nil] for an optional string. *)
Definition notNil (p : option string) : bool :=
  match p with
  | Some _ => true
  | None => false
  end.

Section Handlers.

(** The state type of the Credential Service. *)
Context {S : Type}.

(** [util.SanitizeLog], from a package outside the router's file. *)
Variable SanitizeLog : string -> string.

(** The JSON decoder for the body of a create request.  Fields absent
    from the body keep the zero value of their type. *)
Variable Unmarshal : string -> error + CreateCredentialRequest.t.

(** [framework.Respond], from a package outside the router's file. *)
Variable Respond : framework.RespondStep Payload.

Record CredentialRouter : Type := { service : credential.Service S }.

(** Everything a handler can read or change. *)
Record World : Type := {
  store : S;                              (* state of the service *)
  calls : list Call;                      (* service calls, oldest first *)
  logs : list logrus.Entry;               (* the log, oldest first *)
  writer : framework.ResponseWriter Payload   (* the argument [w] *)
}.

Definition M (A : Type) : Type := World -> A * World.

Definition ret {A : Type} (a : A) : M A := fun w => (a, w).

Definition bind {A B : Type} (m : M A) (k : A -> M B) : M B :=
  fun w => let '(a, w') := m w in k a w'.

Notation "x <- m ;; k" := (bind m (fun x => k))
  (at level 100, m at next level, right associativity).
Notation "m ;;; k" := (bind m (fun _ => k))
  (at level 100, right associativity).

(** [logrus.WithError(err).Error(msg)] and [logrus.Error(msg)]. *)
Definition logError (err : option error) (msg : string) : M unit :=
  fun w =>
    (tt, {| store := store w; calls := calls w;
            logs := (logs w ++ [ {| logrus.WithError := err;
                                    logrus.Message := msg |} ])%list;
            writer := writer w |}).

(** [framework.Respond(ctx, w, data, status)]: the handler returns the
    error of the step and the writer is as the step leaves it. *)
Definition respond (ctx : framework.Context) (data : Payload)
    (statusCode : Z) : M (option error) :=
  fun w =>
    let '(err, wr) := Respond ctx (writer w) data statusCode in
    (err, {| store := store w; calls := calls w; logs := logs w;
             writer := wr |}).

(** A call of a service method: run it on the state of the service
    and record the call. *)
Definition invoke {A : Type} (c : Call) (method : S -> A * S) : M A :=
  fun w =>
    let '(a, s) := method (store w) in
    (a, {| store := s; calls := (calls w ++ [c])%list; logs := logs w;
           writer := writer w |}).

Variable cr : CredentialRouter.

Definition CreateCredential (ctx : framework.Context)
    (r : framework.Request) : M (option error) :=
  match framework.Decode Unmarshal CreateCredentialRequest.Validate r with
  | inl err =>
      let errMsg := "invalid create credential request" in
      logError (Some err) errMsg ;;;
      ret (Some (framework.NewRequestError (errors.Wrap err errMsg)
                   http.StatusBadRequest))
  | inr request =>
      let req := CreateCredentialRequest.ToServiceRequest request in
      res <- invoke (CallCreateCredential req)
               (credential.CreateCredential (service cr) req) ;;
      match res with
      | inl err =>
          let errMsg := "could not create credential" in
          logError (Some err) errMsg ;;;
          ret (Some (framework.NewRequestError (errors.Wrap err errMsg)
                       http.StatusInternalServerError))
      | inr createCredentialResponse =>
          let resp :=
            {| CreateCredentialResponse.Credential :=
                 credential.CreateCredentialResponse.Credential
                   createCredentialResponse |} in
          respond ctx (CreateCredentialPayload resp) http.StatusCreated
      end
  end.

Definition GetCredential (ctx : framework.Context)
    (r : framework.Request) : M (option error) :=
  match framework.GetParam ctx IDParam with
  | None =>
      let errMsg := "cannot get credential without ID parameter" in
      logError None errMsg ;;;
      ret (Some (framework.NewRequestErrorMsg errMsg http.StatusBadRequest))
  | Some id =>
      let req := {| credential.GetCredentialRequest.ID := id |} in
      res <- invoke (CallGetCredential req)
               (credential.GetCredential (service cr) req) ;;
      match res with
      | inl err =>
          let errMsg := "could not get credential with id: " +:+ id in
          logError (Some err) errMsg ;;;
          ret (Some (framework.NewRequestError (errors.Wrap err errMsg)
                       http.StatusBadRequest))
      | inr gotCredential =>
          let resp :=
            {| GetCredentialResponse.ID :=
                 credsdk.VerifiableCredential.ID
                   (credential.GetCredentialResponse.Credential gotCredential);
               GetCredentialResponse.Credential :=
                 credential.GetCredentialResponse.Credential gotCredential |} in
          respond ctx (GetCredentialPayload resp) http.StatusOK
      end
  end.

Definition getCredentialsByIssuer (issuer : string)
    (ctx : framework.Context) (r : framework.Request) : M (option error) :=
  let req := {| credential.GetCredentialByIssuerRequest.Issuer := issuer |} in
  res <- invoke (CallGetCredentialsByIssuer req)
           (credential.GetCredentialsByIssuer (service cr) req) ;;
  match res with
  | inl err =>
      let errMsg :=
        "could not get credentials for issuer: " +:+ SanitizeLog issuer in
      logError (Some err) errMsg ;;;
      ret (Some (framework.NewRequestError (errors.Wrap err errMsg)
                   http.StatusInternalServerError))
  | inr gotCredentials =>
      let resp :=
        {| GetCredentialsResponse.Credentials :=
             credential.GetCredentialsResponse.Credentials gotCredentials |} in
      respond ctx (GetCredentialsPayload resp) http.StatusOK
  end.

Definition getCredentialsBySubject (subject : string)
    (ctx : framework.Context) (r : framework.Request) : M (option error) :=
  let req := {| credential.GetCredentialBySubjectRequest.Subject := subject |} in
  res <- invoke (CallGetCredentialsBySubject req)
           (credential.GetCredentialsBySubject (service cr) req) ;;
  match res with
  | inl err =>
      let errMsg :=
        "could not get credentials for subject: " +:+ SanitizeLog subject in
      logError (Some err) errMsg ;;;
      ret (Some (framework.NewRequestError (errors.Wrap err errMsg)
                   http.StatusInternalServerError))
  | inr gotCredentials =>
      let resp :=
        {| GetCredentialsResponse.Credentials :=
             credential.GetCredentialsResponse.Credentials gotCredentials |} in
      respond ctx (GetCredentialsPayload resp) http.StatusOK
  end.

Definition getCredentialsBySchema (schema : string)
    (ctx : framework.Context) (r : framework.Request) : M (option error) :=
  let req := {| credential.GetCredentialBySchemaRequest.Schema := schema |} in
  res <- invoke (CallGetCredentialsBySchema req)
           (credential.GetCredentialsBySchema (service cr) req) ;;
  match res with
  | inl err =>
      let errMsg :=
        "could not get credentials for schema: " +:+ SanitizeLog schema in
      logError (Some err) errMsg ;;;
      ret (Some (framework.NewRequestError (errors.Wrap err errMsg)
                   http.StatusInternalServerError))
  | inr gotCredentials =>
      let resp :=
        {| GetCredentialsResponse.Credentials :=
             credential.GetCredentialsResponse.Credentials gotCredentials |} in
      respond ctx (GetCredentialsPayload resp) http.StatusOK
  end.

Definition GetCredentials (ctx : framework.Context)
    (r : framework.Request) : M (option error) :=
  let issuer := framework.GetQueryValue r IssuerParam in
  let schema := framework.GetQueryValue r SchemaParam in
  let subject := framework.GetQueryValue r SubjectParam in
  let err :=
    framework.NewRequestErrorMsg
      "must use one of the following query parameters: issuer, subject, schema"
      http.StatusBadRequest in
  (* check if there are multiple parameters set, which is not allowed *)
  if (notNil issuer && notNil subject) || (notNil issuer && notNil schema)
     || (notNil subject && notNil schema)
  then ret (Some err)
  else
    match issuer with
    | Some issuer => getCredentialsByIssuer issuer ctx r
    | None =>
        match subject with
        | Some subject => getCredentialsBySubject subject ctx r
        | None =>
            match schema with
            | Some schema => getCredentialsBySchema schema ctx r
            | None => ret (Some err)
            end
        end
    end.

Definition DeleteCredential (ctx : framework.Context)
    (r : framework.Request) : M (option error) :=
  match framework.GetParam ctx IDParam with
  | None =>
      let errMsg := "cannot delete credential without ID parameter" in
      logError None errMsg ;;;
      ret (Some (framework.NewRequestErrorMsg errMsg http.StatusBadRequest))
  | Some id =>
      let req := {| credential.DeleteCredentialRequest.ID := id |} in
      res <- invoke (CallDeleteCredential req)
               (credential.DeleteCredential (service cr) req) ;;
      match res with
      | Some err =>
          let errMsg := "could not delete credential with id: " +:+ id in
          logError (Some err) errMsg ;;;
          ret (Some (framework.NewRequestError (errors.Wrap err errMsg)
                       http.StatusInternalServerError))
      | None => respond ctx NilPayload http.StatusOK
      end
  end.

End Handlers.

Arguments CredentialRouter : clear implicits.
Arguments World : clear implicits.
Arguments M : clear implicits.

(** The router [NewCredentialRouter] allocates: its [service] field is
    the pointer the constructor was given.  [WithNilService] is the
    router whose field is the [nil] pointer; the handlers above are those
    of a router whose field is not [nil]. *)
Inductive Constructed (S : Type) : Type :=
| WithService (cr : CredentialRouter S)
| WithNilService.
Arguments WithService {S}.
Arguments WithNilService {S}.

(** The constructor returns Go's pair of a router pointer and an error;
    each is [None] when [nil].  The type assertion of [s] to a pointer
    to [credential.Service] succeeds when that is the dynamic type of
    [s], whatever the pointer. *)
Definition NewCredentialRouter {S : Type} (s : option (svcframework.Service S))
    : option (Constructed S) * option error :=
  match s with
  | None => (None, Some (errors.New "service cannot be nil"))
  | Some (svcframework.Other type) =>
      (None,
       Some (errors.New
               ("could not create credential router with service type: "
                +:+ type)))
  | Some (svcframework.Credential (Some credService)) =>
      (Some (WithService {| service := credService |}), None)
  | Some (svcframework.Credential None) => (Some WithNilService, None)
  end.

End router.

(** ** Services used to exercise the statements *)
Module testdouble.

Definition notFound : error := errors.New "credential not found".

Definition hasID (id : string) (c : credsdk.VerifiableCredential.t) : bool :=
  bool_decide (credsdk.VerifiableCredential.ID c = id).

Definition issue (req : credential.CreateCredentialRequest.t)
    (id : string) : credsdk.VerifiableCredential.t :=
  {| credsdk.VerifiableCredential.Context := json.Str (credential.CreateCredentialRequest.Context req);
     credsdk.VerifiableCredential.ID := id;
     credsdk.VerifiableCredential.Issuer := credential.CreateCredentialRequest.Issuer req;
     credsdk.VerifiableCredential.IssuanceDate := "2022-01-01T00:00:00Z";
     credsdk.VerifiableCredential.ExpirationDate := credential.CreateCredentialRequest.Expiry req;
     credsdk.VerifiableCredential.CredentialSubject :=
       <["id" := json.Str (credential.CreateCredentialRequest.Subject req)]>
         (default ∅ (credential.CreateCredentialRequest.Data req));
     credsdk.VerifiableCredential.CredentialSchema :=
       credential.CreateCredentialRequest.JSONSchema req |}.

(** An in-memory Credential Service: its state is the list of the
    credentials it holds; the identifier of a new credential is the
    subject of the request. *)
Definition inMemory : credential.Service (list credsdk.VerifiableCredential.t) :=
  {| credential.CreateCredential req s :=
       let c := issue req (credential.CreateCredentialRequest.Subject req) in
       (inr {| credential.CreateCredentialResponse.Credential := c |},
        (s ++ [c])%list);
     credential.GetCredential req s :=
       match List.find (hasID (credential.GetCredentialRequest.ID req)) s with
       | Some c => (inr {| credential.GetCredentialResponse.Credential := c |}, s)
       | None => (inl notFound, s)
       end;
     credential.GetCredentialsByIssuer req s :=
       (inr {| credential.GetCredentialsResponse.Credentials :=
                 List.filter
                   (fun c => bool_decide
                      (credsdk.VerifiableCredential.Issuer c =
                       credential.GetCredentialByIssuerRequest.Issuer req)) s |},
        s);
     credential.GetCredentialsBySubject req s :=
       (inr {| credential.GetCredentialsResponse.Credentials :=
                 List.filter
                   (hasID (credential.GetCredentialBySubjectRequest.Subject req))
                   s |},
        s);
     credential.GetCredentialsBySchema req s :=
       (inr {| credential.GetCredentialsResponse.Credentials :=
                 List.filter
                   (fun c => bool_decide
                      (credsdk.VerifiableCredential.CredentialSchema c =
                       credential.GetCredentialBySchemaRequest.Schema req)) s |},
        s);
     credential.DeleteCredential req s :=
       (None,
        List.filter
          (fun c => negb (hasID (credential.DeleteCredentialRequest.ID req) c))
          s) |}.

(** A Credential Service that is down: every method fails with [e]. *)
Definition failing (e : error) : credential.Service unit :=
  {| credential.CreateCredential _ s := (inl e, s);
     credential.GetCredential _ s := (inl e, s);
     credential.GetCredentialsByIssuer _ s := (inl e, s);
     credential.GetCredentialsBySubject _ s := (inl e, s);
     credential.GetCredentialsBySchema _ s := (inl e, s);
     credential.DeleteCredential _ s := (Some e, s) |}.

(** A Credential Service that holds nothing and says what it was asked
    for: every method fails with an error that repeats its argument. *)
Definition echoing : credential.Service unit :=
  {| credential.CreateCredential req s :=
       (inl (errors.New
               ("cannot issue a credential for subject: "
                +:+ credential.CreateCredentialRequest.Subject req)), s);
     credential.GetCredential req s :=
       (inl (errors.New
               ("credential not found with id: "
                +:+ credential.GetCredentialRequest.ID req)), s);
     credential.GetCredentialsByIssuer req s :=
       (inl (errors.New
               ("no credentials of issuer: "
                +:+ credential.GetCredentialByIssuerRequest.Issuer req)), s);
     credential.GetCredentialsBySubject req s :=
       (inl (errors.New
               ("no credentials of subject: "
                +:+ credential.GetCredentialBySubjectRequest.Subject req)), s);
     credential.GetCredentialsBySchema req s :=
       (inl (errors.New
               ("no credentials of schema: "
                +:+ credential.GetCredentialBySchemaRequest.Schema req)), s);
     credential.DeleteCredential req s :=
       (Some (errors.New
                ("credential not found with id: "
                 +:+ credential.DeleteCredentialRequest.ID req)), s) |}.

(** A sanitizer that drops line breaks. *)
Fixpoint dropLineBreaks (s : string) : string :=
  match s with
  | EmptyString => EmptyString
  | String c rest =>
      if bool_decide (c = "010"%char) || bool_decide (c = "013"%char)
      then dropLineBreaks rest
      else String c (dropLineBreaks rest)
  end.

(** A decoder for bodies of the form [issuer|subject]: the text before
    the first bar is the issuer, the rest the subject, the claims are
    the empty object; a body without a bar is malformed. *)
Fixpoint splitBar (s : string) : option (string * string) :=
  match s with
  | EmptyString => None
  | String c rest =>
      if bool_decide (c = "|"%char) then Some (EmptyString, rest)
      else match splitBar rest with
           | Some (a, b) => Some (String c a, b)
           | None => None
           end
  end.

Definition unmarshal (body : string)
    : error + router.CreateCredentialRequest.t :=
  match splitBar body with
  | None => inl (errors.New "unexpected end of JSON input")
  | Some (issuer, subject) =>
      inr {| router.CreateCredentialRequest.Issuer := issuer;
             router.CreateCredentialRequest.Subject := subject;
             router.CreateCredentialRequest.Context := "";
             router.CreateCredentialRequest.Schema := "";
             router.CreateCredentialRequest.Data := Some ∅;
             router.CreateCredentialRequest.Expiry := "" |}
  end.

(** A filter value or id that carries a line break and a forged log
    line, and the text [dropLineBreaks] turns it into. *)
Definition forged : string :=
  "did:a" +:+ String "010"%char "level=error msg=forged".

Definition forgedOnOneLine : string := "did:alevel=error msg=forged".

Definition storageDown : error := errors.New "storage unavailable".

(** The credential the in-memory service issues for [did:a] and
    [did:b]. *)
Definition sampleCredential : credsdk.VerifiableCredential.t :=
  {| credsdk.VerifiableCredential.Context := json.Str "";
     credsdk.VerifiableCredential.ID := "did:b";
     credsdk.VerifiableCredential.Issuer := "did:a";
     credsdk.VerifiableCredential.IssuanceDate := "2022-01-01T00:00:00Z";
     credsdk.VerifiableCredential.ExpirationDate := "";
     credsdk.VerifiableCredential.CredentialSubject :=
       {[ "id" := json.Str "did:b" ]};
     credsdk.VerifiableCredential.CredentialSchema := "" |}.

Definition sampleRequest : router.CreateCredentialRequest.t :=
  {| router.CreateCredentialRequest.Issuer := "did:a";
     router.CreateCredentialRequest.Subject := "did:b";
     router.CreateCredentialRequest.Context := "";
     router.CreateCredentialRequest.Schema := "";
     router.CreateCredentialRequest.Data := Some ∅;
     router.CreateCredentialRequest.Expiry := "" |}.

Definition inMemoryRouter
    : router.CredentialRouter (list credsdk.VerifiableCredential.t) :=
  {| router.service := inMemory |}.

Definition failingRouter : router.CredentialRouter unit :=
  {| router.service := failing storageDown |}.

Definition echoingRouter : router.CredentialRouter unit :=
  {| router.service := echoing |}.

(** A response step that never fails: it adds the status code and the
    payload to what has been written. *)
Definition respond : framework.RespondStep router.Payload :=
  fun _ w data statusCode => (None, (w ++ [(statusCode, data)])%list).

(** A response step that fails: it writes the status code and the
    payload, loses the connection and returns an error. *)
Definition connectionLost : error := errors.New "write: broken pipe".

Definition respondAndFail : framework.RespondStep router.Payload :=
  fun _ w data statusCode =>
    (Some connectionLost, (w ++ [(statusCode, data)])%list).

Definition emptyWorld {S : Type} (s : S) : router.World S :=
  {| router.store := s; router.calls := []; router.logs := [];
     router.writer := [] |}.

Definition request (query : gmap string string) (body : string)
    : framework.Request :=
  {| framework.Query := query; framework.Body := body |}.

Definition context (params : gmap string string) : framework.Context :=
  {| framework.Params := params |}.

End testdouble.

(** * Statements about the router *)

(** How many of the three query filters a request sets. *)
Definition filtersSet (r : framework.Request) : nat :=
  length
    (List.filter router.notNil
       [framework.GetQueryValue r router.IssuerParam;
        framework.GetQueryValue r router.SubjectParam;
        framework.GetQueryValue r router.SchemaParam]).

(** The error every rejected query returns. *)
Definition mustUseOneFilter : error :=
  errors.RequestError
    (errors.New
       "must use one of the following query parameters: issuer, subject, schema")
    400.

(** The world after one more entry has been logged. *)
Definition logged {S : Type} (w : router.World S) (err : option error)
    (msg : string) : router.World S :=
  {| router.store := router.store w;
     router.calls := router.calls w;
     router.logs :=
       (router.logs w ++ [ {| logrus.WithError := err; logrus.Message := msg |} ])%list;
     router.writer := router.writer w |}.

(** The statement "a call of [GetCredential] or [DeleteCredential] whose
    id parameter is empty or absent returns a BadRequest error without any
    invocation of the Credential Service", at one call. *)
Definition emptyOrAbsentIDRejected {S : Type}
    (Respond : framework.RespondStep router.Payload)
    (cr : router.CredentialRouter S)
    (ctx : framework.Context) (r : framework.Request) (w : router.World S)
    : Prop :=
  framework.GetParam ctx router.IDParam = None
  \/ framework.GetParam ctx router.IDParam = Some "" ->
  (exists err,
     fst (router.GetCredential Respond cr ctx r w) =
       Some (errors.RequestError err http.StatusBadRequest))
  /\ router.calls (snd (router.GetCredential Respond cr ctx r w)) = router.calls w
  /\ (exists err,
        fst (router.DeleteCredential Respond cr ctx r w) =
          Some (errors.RequestError err http.StatusBadRequest))
  /\ router.calls (snd (router.DeleteCredential Respond cr ctx r w)) = router.calls w.

(** Whether [needle] occurs in [text], verbatim. *)
Fixpoint occurs (needle text : string) : bool :=
  String.prefix needle text
  || match text with
     | EmptyString => false
     | String _ rest => occurs needle rest
     end.

(** The statement "when the list call of the Credential Service fails,
    what is returned and logged contains only the sanitized form of the
    filter value, never the raw string verbatim", at one query by issuer
    whose value the sanitizer changes: the raw value occurs neither in
    the text of the returned error, nor in the message of a log entry,
    nor in the text of the error a log entry carries. *)
Definition rawFilterNeverLeaves {S : Type} (SanitizeLog : string -> string)
    (Respond : framework.RespondStep router.Payload)
    (cr : router.CredentialRouter S)
    (ctx : framework.Context) (r : framework.Request) (w : router.World S)
    (issuer : string) : Prop :=
  forall e s,
    credential.GetCredentialsByIssuer (router.service cr)
      {| credential.GetCredentialByIssuerRequest.Issuer := issuer |}
      (router.store w) = (inl e, s) ->
    SanitizeLog issuer <> issuer ->
    let out := router.getCredentialsByIssuer SanitizeLog Respond cr issuer ctx r w in
    (forall err, fst out = Some err -> occurs issuer (errors.Error err) = false)
    /\ (forall entry,
          In entry (router.logs (snd out)) ->
          occurs issuer (logrus.Message entry) = false
          /\ (forall cause,
                logrus.WithError entry = Some cause ->
                occurs issuer (errors.Error cause) = false)).

(** What a caller and an operator observe of a failed call: the error
    returned and the log. *)
Definition returnedAndLogged {S : Type} (out : option error * router.World S)
    : option error * list logrus.Entry :=
  (fst out, router.logs (snd out)).

(** The four public handlers of the router. *)
Inductive Handler : Type :=
| CreateCredentialHandler
| GetCredentialHandler
| GetCredentialsHandler
| DeleteCredentialHandler.

(** The computation a handler runs for a request. *)
Definition serve {S : Type} (SanitizeLog : string -> string)
    (Unmarshal : string -> error + router.CreateCredentialRequest.t)
    (Respond : framework.RespondStep router.Payload)
    (cr : router.CredentialRouter S) (h : Handler)
    (ctx : framework.Context) (r : framework.Request)
    : router.M S (option error) :=
  match h with
  | CreateCredentialHandler => router.CreateCredential Unmarshal Respond cr ctx r
  | GetCredentialHandler => router.GetCredential Respond cr ctx r
  | GetCredentialsHandler => router.GetCredentials SanitizeLog Respond cr ctx r
  | DeleteCredentialHandler => router.DeleteCredential Respond cr ctx r
  end.

(** The status a handler answers with when it returns no error. *)
Definition successStatus (h : Handler) : Z :=
  match h with
  | CreateCredentialHandler => http.StatusCreated
  | _ => http.StatusOK
  end.

(** The statuses a handler's errors can carry. *)
Definition errorStatuses (h : Handler) : list Z :=
  match h with
  | GetCredentialHandler => [http.StatusBadRequest]
  | _ => [http.StatusBadRequest; http.StatusInternalServerError]
  end.

(** The service methods a handler may call. *)
Definition mayCall (h : Handler) (c : router.Call) : bool :=
  match h, c with
  | CreateCredentialHandler, router.CallCreateCredential _ => true
  | GetCredentialHandler, router.CallGetCredential _ => true
  | GetCredentialsHandler, router.CallGetCredentialsByIssuer _ => true
  | GetCredentialsHandler, router.CallGetCredentialsBySubject _ => true
  | GetCredentialsHandler, router.CallGetCredentialsBySchema _ => true
  | DeleteCredentialHandler, router.CallDeleteCredential _ => true
  | _, _ => false
  end.

(** The state in which a call leaves the service. *)
Definition perform {S : Type} (svc : credential.Service S) (c : router.Call)
    (s : S) : S :=
  match c with
  | router.CallCreateCredential req => snd (credential.CreateCredential svc req s)
  | router.CallGetCredential req => snd (credential.GetCredential svc req s)
  | router.CallGetCredentialsByIssuer req =>
      snd (credential.GetCredentialsByIssuer svc req s)
  | router.CallGetCredentialsBySubject req =>
      snd (credential.GetCredentialsBySubject svc req s)
  | router.CallGetCredentialsBySchema req =>
      snd (credential.GetCredentialsBySchema svc req s)
  | router.CallDeleteCredential req => snd (credential.DeleteCredential svc req s)
  end.


(** A world without history: the service in state [s], no call made,
    nothing logged, nothing written. *)
Definition freshWorld {S : Type} (s : S) : router.World S :=
  {| router.store := s; router.calls := []; router.logs := [];
     router.writer := [] |}.

(** The world [after], reached from a world without history, replayed on
    top of the history of [w]. *)
Definition onTopOf {S : Type} (w after : router.World S) : router.World S :=
  {| router.store := router.store after;
     router.calls := (router.calls w ++ router.calls after)%list;
     router.logs := (router.logs w ++ router.logs after)%list;
     router.writer := (router.writer w ++ router.writer after)%list |}.

(** A response step that does not look at what was written before: on
    any writer it returns the error it returns on the empty writer, and
    adds to the writer what it adds to the empty one. *)
Definition ignoresEarlierResponses
    (Respond : framework.RespondStep router.Payload) : Prop :=
  forall ctx wr data statusCode,
    Respond ctx wr data statusCode =
      (fst (Respond ctx [] data statusCode),
       (wr ++ snd (Respond ctx [] data statusCode))%list).

(** Unfolds a handler down to the primitive operations of the monad. *)
Ltac run_handler :=
  unfold router.CreateCredential, router.GetCredential, router.GetCredentials,
    router.DeleteCredential, router.getCredentialsByIssuer,
    router.getCredentialsBySubject, router.getCredentialsBySchema,
    router.bind, router.ret, router.invoke, router.logError, router.respond,
    framework.NewRequestError, framework.NewRequestErrorMsg,
    logged;
  cbn beta iota zeta.

Section RouterSpec.

Context {S : Type}.
Variable SanitizeLog : string -> string.
Variable Unmarshal : string -> error + router.CreateCredentialRequest.t.
Variable Respond : framework.RespondStep router.Payload.
Variable cr : router.CredentialRouter S.

Implicit Types (ctx : framework.Context) (r : framework.Request).
Implicit Types (w : router.World S) (e err : error).

(** C1. A query that sets none of [issuer], [subject], [schema], or two
    or more of them, returns the BadRequest error with the fixed message
    and leaves the world as it was: no method of the Credential Service
    is invoked, nothing is logged or written. *)
Theorem GetCredentials_rejects_zero_or_several_filters ctx r w :
  filtersSet r <> 1%nat ->
  router.GetCredentials SanitizeLog Respond cr ctx r w = (Some mustUseOneFilter, w)
  /\ errors.Error mustUseOneFilter =
       "must use one of the following query parameters: issuer, subject, schema"
  /\ errors.StatusOf mustUseOneFilter = Some http.StatusBadRequest
  /\ router.calls (snd (router.GetCredentials SanitizeLog Respond cr ctx r w)) =
       router.calls w.
Proof.
  intros Hn.
  assert (Hrun : router.GetCredentials SanitizeLog Respond cr ctx r w =
                 (Some mustUseOneFilter, w)).
  { revert Hn. unfold filtersSet, router.GetCredentials.
    destruct (framework.GetQueryValue r router.IssuerParam),
             (framework.GetQueryValue r router.SubjectParam),
             (framework.GetQueryValue r router.SchemaParam);
      cbn; intros Hn; try reflexivity; contradiction Hn; reflexivity. }
  rewrite Hrun. repeat split; reflexivity.
Qed.


(** C3. A create request whose decode step fails is answered with a
    BadRequest error, and the Credential Service is not invoked; a body
    that decodes to a request without issuer, without subject or
    without data is such a request. *)
Theorem CreateCredential_rejects_undecodable_request ctx r w :
  (forall err,
     framework.Decode Unmarshal router.CreateCredentialRequest.Validate r =
       inl err ->
     router.CreateCredential Unmarshal Respond cr ctx r w =
       (Some (errors.RequestError
                (errors.Wrap err "invalid create credential request")
                http.StatusBadRequest),
        logged w (Some err) "invalid create credential request")
     /\ router.calls (snd (router.CreateCredential Unmarshal Respond cr ctx r w)) =
          router.calls w)
  /\ (forall request,
        Unmarshal (framework.Body r) = inr request ->
        router.CreateCredentialRequest.Issuer request = ""
        \/ router.CreateCredentialRequest.Subject request = ""
        \/ router.CreateCredentialRequest.Data request = None ->
        exists err,
          fst (router.CreateCredential Unmarshal Respond cr ctx r w) =
            Some (errors.RequestError
                    (errors.Wrap err "invalid create credential request")
                    http.StatusBadRequest)
          /\ router.calls (snd (router.CreateCredential Unmarshal Respond cr ctx r w)) =
               router.calls w).
Proof.
  assert (Hfail : forall err,
    framework.Decode Unmarshal router.CreateCredentialRequest.Validate r =
      inl err ->
    router.CreateCredential Unmarshal Respond cr ctx r w =
      (Some (errors.RequestError
               (errors.Wrap err "invalid create credential request")
               http.StatusBadRequest),
       logged w (Some err) "invalid create credential request")).
  { intros err Hdec. unfold router.CreateCredential. rewrite Hdec.
    reflexivity. }
  split.
  - intros err Hdec. rewrite (Hfail err Hdec). split; reflexivity.
  - intros request Hbody Hmissing.
    assert (Hinvalid : exists err,
      router.CreateCredentialRequest.Validate request = Some err).
    { unfold router.CreateCredentialRequest.Validate.
      destruct Hmissing as [Hi | [Hs | Hd]].
      - rewrite Hi. eexists. reflexivity.
      - rewrite Hs. destruct (decide (_ = "")); eexists; reflexivity.
      - rewrite Hd. repeat destruct (decide (_ = "")); eexists; reflexivity. }
    destruct Hinvalid as [err Herr]. exists err.
    rewrite (Hfail err).
    + split; reflexivity.
    + unfold framework.Decode. rewrite Hbody, Herr. reflexivity.
Qed.

(** C4, as amended. When the id parameter is absent, [GetCredential]
    and [DeleteCredential] return a BadRequest error with their fixed
    message, log it, and do not invoke the Credential Service.  When the
    parameter is present, whatever its value, each handler invokes the
    service once with that value. *)
Theorem handlers_reject_absent_id ctx r w :
  (framework.GetParam ctx router.IDParam = None ->
   router.GetCredential Respond cr ctx r w =
     (Some (errors.RequestError
              (errors.New "cannot get credential without ID parameter")
              http.StatusBadRequest),
      logged w None "cannot get credential without ID parameter")
   /\ router.DeleteCredential Respond cr ctx r w =
        (Some (errors.RequestError
                 (errors.New "cannot delete credential without ID parameter")
                 http.StatusBadRequest),
         logged w None "cannot delete credential without ID parameter")
   /\ router.calls (snd (router.GetCredential Respond cr ctx r w)) = router.calls w
   /\ router.calls (snd (router.DeleteCredential Respond cr ctx r w)) = router.calls w)
  /\ (forall id,
        framework.GetParam ctx router.IDParam = Some id ->
        router.calls (snd (router.GetCredential Respond cr ctx r w)) =
          (router.calls w ++
           [router.CallGetCredential
              {| credential.GetCredentialRequest.ID := id |}])%list
        /\ router.calls (snd (router.DeleteCredential Respond cr ctx r w)) =
             (router.calls w ++
              [router.CallDeleteCredential
                 {| credential.DeleteCredentialRequest.ID := id |}])%list).
Proof.
  split.
  - intros Hid. unfold router.GetCredential, router.DeleteCredential.
    rewrite Hid. repeat split; reflexivity.
  - intros id Hid. unfold router.GetCredential, router.DeleteCredential.
    rewrite Hid. run_handler. split.
    + destruct (credential.GetCredential _ _ _) as [[e|got] s];
        [reflexivity | destruct (Respond _ _ _ _); reflexivity].
    + destruct (credential.DeleteCredential _ _ _) as [[e|] s];
        [reflexivity | destruct (Respond _ _ _ _); reflexivity].
Qed.

(** C5. A failure of the Credential Service is classified differently
    by the lookup operations: [GetCredential] returns a request error
    with status 400, each of the three filtered list operations returns
    a request error with status 500. *)
Theorem lookup_failures_are_classified_asymmetrically ctx r w e s v :
  (framework.GetParam ctx router.IDParam = Some v ->
   credential.GetCredential (router.service cr)
     {| credential.GetCredentialRequest.ID := v |} (router.store w) =
     (inl e, s) ->
   fst (router.GetCredential Respond cr ctx r w) =
     Some (errors.RequestError
             (errors.Wrap e ("could not get credential with id: " +:+ v))
             400))
  /\ (credential.GetCredentialsByIssuer (router.service cr)
        {| credential.GetCredentialByIssuerRequest.Issuer := v |}
        (router.store w) = (inl e, s) ->
      fst (router.getCredentialsByIssuer SanitizeLog Respond cr v ctx r w) =
        Some (errors.RequestError
                (errors.Wrap e
                   ("could not get credentials for issuer: " +:+ SanitizeLog v))
                500))
  /\ (credential.GetCredentialsBySubject (router.service cr)
        {| credential.GetCredentialBySubjectRequest.Subject := v |}
        (router.store w) = (inl e, s) ->
      fst (router.getCredentialsBySubject SanitizeLog Respond cr v ctx r w) =
        Some (errors.RequestError
                (errors.Wrap e
                   ("could not get credentials for subject: " +:+ SanitizeLog v))
                500))
  /\ (credential.GetCredentialsBySchema (router.service cr)
        {| credential.GetCredentialBySchemaRequest.Schema := v |}
        (router.store w) = (inl e, s) ->
      fst (router.getCredentialsBySchema SanitizeLog Respond cr v ctx r w) =
        Some (errors.RequestError
                (errors.Wrap e
                   ("could not get credentials for schema: " +:+ SanitizeLog v))
                500)).
Proof.
  split; [|split; [|split]].
  - intros Hid Hsvc. unfold router.GetCredential. rewrite Hid.
    run_handler. rewrite Hsvc. reflexivity.
  - intros Hsvc. run_handler. rewrite Hsvc. reflexivity.
  - intros Hsvc. run_handler. rewrite Hsvc. reflexivity.
  - intros Hsvc. run_handler. rewrite Hsvc. reflexivity.
Qed.

(** C6. When the request decodes and the Credential Service creates
    the credential [X], [CreateCredential] responds with status 201 and
    an envelope whose credential is [X]: it runs the response step on
    that status and that envelope, returns what the step returns and
    leaves the writer as the step leaves it; the service was called
    once, with the translated request. *)
Theorem CreateCredential_echoes_created_credential ctx r w request created s :
  framework.Decode Unmarshal router.CreateCredentialRequest.Validate r =
    inr request ->
  credential.CreateCredential (router.service cr)
    (router.CreateCredentialRequest.ToServiceRequest request)
    (router.store w) = (inr created, s) ->
  let X := credential.CreateCredentialResponse.Credential created in
  let out := router.CreateCredential Unmarshal Respond cr ctx r w in
  let answer :=
    Respond ctx (router.writer w)
      (router.CreateCredentialPayload
         {| router.CreateCredentialResponse.Credential := X |})
      http.StatusCreated in
  fst out = fst answer
  /\ router.writer (snd out) = snd answer
  /\ router.calls (snd out) =
       (router.calls w ++
        [router.CallCreateCredential
           (router.CreateCredentialRequest.ToServiceRequest request)])%list.
Proof.
  intros Hdec Hsvc X out answer. subst X out answer.
  unfold router.CreateCredential. rewrite Hdec.
  run_handler. rewrite Hsvc.
  destruct (Respond _ _ _ _) as [err wr]. repeat split; reflexivity.
Qed.

(** C7. [ToServiceRequest] copies every field of the wire request to
    the field of the same name of the service request, [Schema] to
    [JSONSchema]; nothing is lost: requests with the same image are
    equal. *)
Theorem ToServiceRequest_is_structural (c : router.CreateCredentialRequest.t) :
  let req := router.CreateCredentialRequest.ToServiceRequest c in
  credential.CreateCredentialRequest.Issuer req =
    router.CreateCredentialRequest.Issuer c
  /\ credential.CreateCredentialRequest.Subject req =
       router.CreateCredentialRequest.Subject c
  /\ credential.CreateCredentialRequest.Context req =
       router.CreateCredentialRequest.Context c
  /\ credential.CreateCredentialRequest.JSONSchema req =
       router.CreateCredentialRequest.Schema c
  /\ credential.CreateCredentialRequest.Data req =
       router.CreateCredentialRequest.Data c
  /\ credential.CreateCredentialRequest.Expiry req =
       router.CreateCredentialRequest.Expiry c
  /\ (forall c',
        router.CreateCredentialRequest.ToServiceRequest c' = req -> c' = c).
Proof.
  cbn zeta. repeat split.
  intros c' Heq. destruct c, c'.
  unfold router.CreateCredentialRequest.ToServiceRequest in Heq.
  cbn in Heq. congruence.
Qed.

(** C8, as amended. When a list call of the Credential Service fails
    with the error [e], the message the router builds is the fixed
    prefix followed by [SanitizeLog] of the filter value; the router
    logs that message together with [e], and returns that message
    wrapped around [e], with status 500: [e] itself is passed on as it
    is.  The router puts the filter value into what it returns and logs
    through [SanitizeLog] only: two filter values with the same
    sanitized form, failing with the same service error, give the same
    returned error and the same log. *)
Theorem list_failure_message_uses_sanitized_filter ctx r w v e s :
  (credential.GetCredentialsByIssuer (router.service cr)
     {| credential.GetCredentialByIssuerRequest.Issuer := v |}
     (router.store w) = (inl e, s) ->
   let msg := "could not get credentials for issuer: " +:+ SanitizeLog v in
   returnedAndLogged (router.getCredentialsByIssuer SanitizeLog Respond cr v ctx r w) =
     (Some (errors.RequestError (errors.Wrap e msg)
              http.StatusInternalServerError),
      (router.logs w ++
       [ {| logrus.WithError := Some e; logrus.Message := msg |} ])%list))
  /\ (credential.GetCredentialsBySubject (router.service cr)
        {| credential.GetCredentialBySubjectRequest.Subject := v |}
        (router.store w) = (inl e, s) ->
      let msg := "could not get credentials for subject: " +:+ SanitizeLog v in
      returnedAndLogged (router.getCredentialsBySubject SanitizeLog Respond cr v ctx r w) =
        (Some (errors.RequestError (errors.Wrap e msg)
                 http.StatusInternalServerError),
         (router.logs w ++
          [ {| logrus.WithError := Some e; logrus.Message := msg |} ])%list))
  /\ (credential.GetCredentialsBySchema (router.service cr)
        {| credential.GetCredentialBySchemaRequest.Schema := v |}
        (router.store w) = (inl e, s) ->
      let msg := "could not get credentials for schema: " +:+ SanitizeLog v in
      returnedAndLogged (router.getCredentialsBySchema SanitizeLog Respond cr v ctx r w) =
        (Some (errors.RequestError (errors.Wrap e msg)
                 http.StatusInternalServerError),
         (router.logs w ++
          [ {| logrus.WithError := Some e; logrus.Message := msg |} ])%list))
  /\ (forall v' s',
        SanitizeLog v = SanitizeLog v' ->
        (credential.GetCredentialsByIssuer (router.service cr)
           {| credential.GetCredentialByIssuerRequest.Issuer := v |}
           (router.store w) = (inl e, s) ->
         credential.GetCredentialsByIssuer (router.service cr)
           {| credential.GetCredentialByIssuerRequest.Issuer := v' |}
           (router.store w) = (inl e, s') ->
         returnedAndLogged
           (router.getCredentialsByIssuer SanitizeLog Respond cr v ctx r w) =
         returnedAndLogged
           (router.getCredentialsByIssuer SanitizeLog Respond cr v' ctx r w))
        /\ (credential.GetCredentialsBySubject (router.service cr)
              {| credential.GetCredentialBySubjectRequest.Subject := v |}
              (router.store w) = (inl e, s) ->
            credential.GetCredentialsBySubject (router.service cr)
              {| credential.GetCredentialBySubjectRequest.Subject := v' |}
              (router.store w) = (inl e, s') ->
            returnedAndLogged
              (router.getCredentialsBySubject SanitizeLog Respond cr v ctx r w) =
            returnedAndLogged
              (router.getCredentialsBySubject SanitizeLog Respond cr v' ctx r w))
        /\ (credential.GetCredentialsBySchema (router.service cr)
              {| credential.GetCredentialBySchemaRequest.Schema := v |}
              (router.store w) = (inl e, s) ->
            credential.GetCredentialsBySchema (router.service cr)
              {| credential.GetCredentialBySchemaRequest.Schema := v' |}
              (router.store w) = (inl e, s') ->
            returnedAndLogged
              (router.getCredentialsBySchema SanitizeLog Respond cr v ctx r w) =
            returnedAndLogged
              (router.getCredentialsBySchema SanitizeLog Respond cr v' ctx r w))).
Proof.
  split; [|split; [|split]].
  - intros Hsvc. unfold returnedAndLogged. run_handler.
    rewrite Hsvc. reflexivity.
  - intros Hsvc. unfold returnedAndLogged. run_handler.
    rewrite Hsvc. reflexivity.
  - intros Hsvc. unfold returnedAndLogged. run_handler.
    rewrite Hsvc. reflexivity.
  - intros v' s' Hsan.
    split; [|split]; intros Hsvc Hsvc'; unfold returnedAndLogged;
      run_handler; rewrite Hsvc, Hsvc', Hsan; reflexivity.
Qed.

(** C9. When the Credential Service returns a credential,
    [GetCredential] responds with status 200 and a response whose [ID]
    is the [ID] of that credential and whose credential is that
    credential, unchanged: it runs the response step on that status and
    that response, returns what the step returns and leaves the writer
    as the step leaves it. *)
Theorem GetCredential_returns_service_credential ctx r w id got s :
  framework.GetParam ctx router.IDParam = Some id ->
  credential.GetCredential (router.service cr)
    {| credential.GetCredentialRequest.ID := id |} (router.store w) =
    (inr got, s) ->
  let X := credential.GetCredentialResponse.Credential got in
  let out := router.GetCredential Respond cr ctx r w in
  let answer :=
    Respond ctx (router.writer w)
      (router.GetCredentialPayload
         {| router.GetCredentialResponse.ID :=
              credsdk.VerifiableCredential.ID X;
            router.GetCredentialResponse.Credential := X |})
      http.StatusOK in
  fst out = fst answer /\ router.writer (snd out) = snd answer.
Proof.
  intros Hid Hsvc X out answer. subst X out answer.
  unfold router.GetCredential. rewrite Hid.
  run_handler. rewrite Hsvc.
  destruct (Respond _ _ _ _) as [err wr]. split; reflexivity.
Qed.

(** C10. When the id is present and the Credential Service fails,
    [GetCredential] and [DeleteCredential] log, and wrap around the
    service's error, a message that ends with the id as the caller
    supplied it; neither handler depends on [SanitizeLog]. *)
Theorem id_failure_message_embeds_raw_id ctx r w id e s :
  framework.GetParam ctx router.IDParam = Some id ->
  (credential.GetCredential (router.service cr)
     {| credential.GetCredentialRequest.ID := id |} (router.store w) =
     (inl e, s) ->
   let msg := "could not get credential with id: " +:+ id in
   returnedAndLogged (router.GetCredential Respond cr ctx r w) =
     (Some (errors.RequestError (errors.Wrap e msg) http.StatusBadRequest),
      (router.logs w ++
       [ {| logrus.WithError := Some e; logrus.Message := msg |} ])%list))
  /\ (credential.DeleteCredential (router.service cr)
        {| credential.DeleteCredentialRequest.ID := id |} (router.store w) =
        (Some e, s) ->
      let msg := "could not delete credential with id: " +:+ id in
      returnedAndLogged (router.DeleteCredential Respond cr ctx r w) =
        (Some (errors.RequestError (errors.Wrap e msg)
                 http.StatusInternalServerError),
         (router.logs w ++
          [ {| logrus.WithError := Some e; logrus.Message := msg |} ])%list)).
Proof.
  intros Hid. split; intros Hsvc; unfold returnedAndLogged.
  - unfold router.GetCredential. rewrite Hid. run_handler.
    rewrite Hsvc. reflexivity.
  - unfold router.DeleteCredential. rewrite Hid. run_handler.
    rewrite Hsvc. reflexivity.
Qed.

End RouterSpec.

(** * Instances of the statements *)

(** [GET /v1/credentials?issuer=did:a&subject=did:b], and a query without
    any filter, are both rejected. *)
Lemma GetCredentials_rejects_zero_or_several_filters_witness :
  let both :=
    testdouble.request {[ "issuer" := "did:a"; "subject" := "did:b" ]} "" in
  let none := testdouble.request ∅ "" in
  let w := testdouble.emptyWorld [] in
  (filtersSet both = 2%nat /\ filtersSet none = 0%nat)
  /\ router.GetCredentials testdouble.dropLineBreaks testdouble.respond testdouble.inMemoryRouter
       (testdouble.context ∅) both w = (Some mustUseOneFilter, w)
  /\ router.GetCredentials testdouble.dropLineBreaks testdouble.respond testdouble.inMemoryRouter
       (testdouble.context ∅) none w = (Some mustUseOneFilter, w).
Proof.
  intros both none w.
  split; [split; vm_compute; reflexivity|].
  split.
  - apply (GetCredentials_rejects_zero_or_several_filters
             testdouble.dropLineBreaks testdouble.respond testdouble.inMemoryRouter
             (testdouble.context ∅) both w).
    vm_compute. discriminate.
  - apply (GetCredentials_rejects_zero_or_several_filters
             testdouble.dropLineBreaks testdouble.respond testdouble.inMemoryRouter
             (testdouble.context ∅) none w).
    vm_compute. discriminate.
Defined.


(** A body without issuer fails validation, a body that is not of the
    expected form fails decoding; both are answered with status 400 and
    neither reaches the service. *)
Lemma CreateCredential_rejects_undecodable_request_witness :
  let run body :=
    router.CreateCredential testdouble.unmarshal testdouble.respond testdouble.inMemoryRouter
      (testdouble.context ∅) (testdouble.request ∅ body)
      (testdouble.emptyWorld []) in
  (fst (run "garbage") =
     Some (errors.RequestError
             (errors.Wrap (errors.New "unexpected end of JSON input")
                "invalid create credential request") 400)
   /\ router.calls (snd (run "garbage")) = [])
  /\ (exists err,
        fst (run "|did:b") =
          Some (errors.RequestError
                  (errors.Wrap err "invalid create credential request") 400)
        /\ router.calls (snd (run "|did:b")) = []).
Proof.
  cbv zeta. split.
  - destruct (CreateCredential_rejects_undecodable_request
                testdouble.unmarshal testdouble.respond testdouble.inMemoryRouter
                (testdouble.context ∅) (testdouble.request ∅ "garbage")
                (testdouble.emptyWorld [])) as [Hfail _].
    destruct (Hfail (errors.New "unexpected end of JSON input")) as [Hrun Hcalls].
    + vm_compute. reflexivity.
    + split; [rewrite Hrun; reflexivity | exact Hcalls].
  - destruct (CreateCredential_rejects_undecodable_request
                testdouble.unmarshal testdouble.respond testdouble.inMemoryRouter
                (testdouble.context ∅) (testdouble.request ∅ "|did:b")
                (testdouble.emptyWorld [])) as [_ Hmissing].
    apply (Hmissing
             {| router.CreateCredentialRequest.Issuer := "";
                router.CreateCredentialRequest.Subject := "did:b";
                router.CreateCredentialRequest.Context := "";
                router.CreateCredentialRequest.Schema := "";
                router.CreateCredentialRequest.Data := Some ∅;
                router.CreateCredentialRequest.Expiry := "" |}).
    + vm_compute. reflexivity.
    + left. reflexivity.
Defined.

(** Without an [id] path parameter both handlers answer 400 and the
    service is not called; with the empty [id] the lookup calls it. *)
Lemma handlers_reject_absent_id_witness :
  let r := testdouble.request ∅ "" in
  let w := testdouble.emptyWorld [testdouble.sampleCredential] in
  (framework.GetParam (testdouble.context ∅) router.IDParam = None
   /\ router.GetCredential testdouble.respond testdouble.inMemoryRouter (testdouble.context ∅) r w =
        (Some (errors.RequestError
                 (errors.New "cannot get credential without ID parameter") 400),
         logged w None "cannot get credential without ID parameter")
   /\ router.calls
        (snd (router.DeleteCredential testdouble.respond testdouble.inMemoryRouter
                (testdouble.context ∅) r w)) = [])
  /\ router.calls
       (snd (router.GetCredential testdouble.respond testdouble.inMemoryRouter
               (testdouble.context {[ "id" := "" ]}) r w)) =
     [router.CallGetCredential {| credential.GetCredentialRequest.ID := "" |}].
Proof.
  cbv zeta. split.
  - destruct (handlers_reject_absent_id testdouble.respond testdouble.inMemoryRouter
                (testdouble.context ∅) (testdouble.request ∅ "")
                (testdouble.emptyWorld [testdouble.sampleCredential]))
      as [Habsent _].
    destruct Habsent as (Hget & _ & _ & Hdel).
    + vm_compute. reflexivity.
    + split; [vm_compute; reflexivity|]. split; [exact Hget | exact Hdel].
  - destruct (handlers_reject_absent_id testdouble.respond testdouble.inMemoryRouter
                (testdouble.context {[ "id" := "" ]}) (testdouble.request ∅ "")
                (testdouble.emptyWorld [testdouble.sampleCredential]))
      as [_ Hpresent].
    destruct (Hpresent "") as [Hget _].
    + vm_compute. reflexivity.
    + exact Hget.
Defined.

(** C4, as stated, fails: an [id] parameter that is present and empty is
    not rejected.  Both handlers pass it to the Credential Service, and
    [DeleteCredential] then answers 200. *)
Lemma empty_id_is_not_rejected :
  ~ emptyOrAbsentIDRejected testdouble.respond testdouble.inMemoryRouter
      (testdouble.context {[ "id" := "" ]}) (testdouble.request ∅ "")
      (testdouble.emptyWorld [testdouble.sampleCredential]).
Proof.
  unfold emptyOrAbsentIDRejected. intros Hclaim.
  destruct Hclaim as (_ & Hcalls & _).
  - right. vm_compute. reflexivity.
  - vm_compute in Hcalls. discriminate Hcalls.
Qed.

(** What the two handlers do with the empty id. *)
Lemma empty_id_trace :
  let ctx := testdouble.context {[ "id" := "" ]} in
  let r := testdouble.request ∅ "" in
  let w := testdouble.emptyWorld [testdouble.sampleCredential] in
  framework.GetParam ctx router.IDParam = Some ""
  /\ router.calls (snd (router.GetCredential testdouble.respond testdouble.inMemoryRouter ctx r w)) =
       [router.CallGetCredential {| credential.GetCredentialRequest.ID := "" |}]
  /\ fst (router.GetCredential testdouble.respond testdouble.inMemoryRouter ctx r w) =
       Some (errors.RequestError
               (errors.Wrap testdouble.notFound
                  "could not get credential with id: ") 400)
  /\ router.calls (snd (router.DeleteCredential testdouble.respond testdouble.inMemoryRouter ctx r w)) =
       [router.CallDeleteCredential
          {| credential.DeleteCredentialRequest.ID := "" |}]
  /\ fst (router.DeleteCredential testdouble.respond testdouble.inMemoryRouter ctx r w) = None
  /\ map fst
       (router.writer
          (snd (router.DeleteCredential testdouble.respond testdouble.inMemoryRouter ctx r w))) =
       [200].
Proof. cbv zeta. repeat split; vm_compute; reflexivity. Qed.

(** With the service down, the lookup by id answers 400 and the lookup by
    issuer answers 500. *)
Lemma lookup_failures_are_classified_asymmetrically_witness :
  let ctx := testdouble.context {[ "id" := "cred-1" ]} in
  let r := testdouble.request ∅ "" in
  let w := testdouble.emptyWorld tt in
  (errors.StatusOf <$> fst (router.GetCredential testdouble.respond testdouble.failingRouter ctx r w))
    = Some (Some 400)
  /\ (errors.StatusOf <$>
        fst (router.getCredentialsByIssuer testdouble.dropLineBreaks
               testdouble.respond testdouble.failingRouter "cred-1" ctx r w))
     = Some (Some 500).
Proof.
  cbv zeta.
  destruct (lookup_failures_are_classified_asymmetrically
              testdouble.dropLineBreaks testdouble.respond testdouble.failingRouter
              (testdouble.context {[ "id" := "cred-1" ]})
              (testdouble.request ∅ "") (testdouble.emptyWorld tt)
              testdouble.storageDown tt "cred-1") as (Hget & Hissuer & _ & _).
  split.
  - rewrite Hget; [reflexivity | vm_compute; reflexivity | reflexivity].
  - rewrite Hissuer; [reflexivity | reflexivity].
Defined.

(** [Create({issuer: did:a, subject: did:b, data: {}})] with the in-memory
    service: 201 and the credential the service issued. *)
Lemma CreateCredential_echoes_created_credential_witness :
  let out :=
    router.CreateCredential testdouble.unmarshal testdouble.respond testdouble.inMemoryRouter
      (testdouble.context ∅) (testdouble.request ∅ "did:a|did:b")
      (testdouble.emptyWorld []) in
  fst out = None
  /\ router.writer (snd out) =
       [(201,
         router.CreateCredentialPayload
           {| router.CreateCredentialResponse.Credential :=
                testdouble.sampleCredential |})]
  /\ router.store (snd out) = [testdouble.sampleCredential].
Proof.
  cbv zeta.
  destruct (CreateCredential_echoes_created_credential
              testdouble.unmarshal testdouble.respond testdouble.inMemoryRouter
              (testdouble.context ∅) (testdouble.request ∅ "did:a|did:b")
              (testdouble.emptyWorld []) testdouble.sampleRequest
              {| credential.CreateCredentialResponse.Credential :=
                   testdouble.sampleCredential |}
              [testdouble.sampleCredential]) as (Herr & Hwriter & _).
  - vm_compute. reflexivity.
  - vm_compute. reflexivity.
  - split; [exact Herr|]. split; [exact Hwriter|]. vm_compute. reflexivity.
Defined.

(** The sample request and its image agree on the schema, and a wire
    request with the image of the sample request is the sample request. *)
Lemma ToServiceRequest_is_structural_witness :
  credential.CreateCredentialRequest.JSONSchema
    (router.CreateCredentialRequest.ToServiceRequest testdouble.sampleRequest) =
    router.CreateCredentialRequest.Schema testdouble.sampleRequest
  /\ {| router.CreateCredentialRequest.Issuer := "did:a";
        router.CreateCredentialRequest.Subject := "did:b";
        router.CreateCredentialRequest.Context := "";
        router.CreateCredentialRequest.Schema := "";
        router.CreateCredentialRequest.Data := Some ∅;
        router.CreateCredentialRequest.Expiry := "" |} =
     testdouble.sampleRequest.
Proof.
  destruct (ToServiceRequest_is_structural testdouble.sampleRequest)
    as (_ & _ & _ & Hschema & _ & _ & Hinj).
  split; [exact Hschema|]. apply Hinj. vm_compute. reflexivity.
Defined.

(** With the service down, a query by an issuer that carries a line break
    logs and returns the message with the line break removed, and the
    same as for the issuer already on one line. *)
Lemma list_failure_message_uses_sanitized_filter_witness :
  let run issuer :=
    returnedAndLogged
      (router.getCredentialsByIssuer testdouble.dropLineBreaks
         testdouble.respond testdouble.failingRouter issuer (testdouble.context ∅)
         (testdouble.request ∅ "") (testdouble.emptyWorld tt)) in
  let msg := "could not get credentials for issuer: did:alevel=error msg=forged" in
  run testdouble.forged =
    (Some (errors.RequestError (errors.Wrap testdouble.storageDown msg) 500),
     [ {| logrus.WithError := Some testdouble.storageDown;
          logrus.Message := msg |} ])
  /\ run testdouble.forged = run testdouble.forgedOnOneLine.
Proof.
  cbv zeta.
  destruct (list_failure_message_uses_sanitized_filter
              testdouble.dropLineBreaks testdouble.respond testdouble.failingRouter
              (testdouble.context ∅) (testdouble.request ∅ "")
              (testdouble.emptyWorld tt) testdouble.forged
              testdouble.storageDown tt) as (Hissuer & _ & _ & Hsame).
  split.
  - rewrite Hissuer; [vm_compute; reflexivity | reflexivity].
  - destruct (Hsame testdouble.forgedOnOneLine tt) as (Heq & _ & _).
    + vm_compute. reflexivity.
    + apply Heq; reflexivity.
Defined.

(** C8, as stated, fails: the router hands the raw filter value to the
    Credential Service, and logs and returns the service's error as it
    is.  With a service whose error repeats its argument, a filter value
    with a line break is logged and returned verbatim, inside that
    error. *)
Lemma raw_filter_is_logged_with_the_service_error :
  ~ rawFilterNeverLeaves testdouble.dropLineBreaks testdouble.respond
      testdouble.echoingRouter (testdouble.context ∅)
      (testdouble.request {[ "issuer" := testdouble.forged ]} "")
      (testdouble.emptyWorld tt) testdouble.forged.
Proof.
  unfold rawFilterNeverLeaves. intros Hclaim.
  destruct (Hclaim
              (errors.New ("no credentials of issuer: " +:+ testdouble.forged))
              tt) as [_ Hlogged].
  - reflexivity.
  - vm_compute. discriminate.
  - destruct (Hlogged
                {| logrus.WithError :=
                     Some (errors.New
                             ("no credentials of issuer: "
                              +:+ testdouble.forged));
                   logrus.Message :=
                     "could not get credentials for issuer: "
                     +:+ testdouble.dropLineBreaks testdouble.forged |})
      as [_ Hcause].
    + left. reflexivity.
    + specialize (Hcause _ eq_refl). vm_compute in Hcause.
      discriminate Hcause.
Qed.

(** What the query by the forged issuer returns and logs with that
    service, and how it differs from the query by the issuer already on
    one line, which has the same sanitized form. *)
Lemma raw_filter_trace :
  let run issuer :=
    returnedAndLogged
      (router.getCredentialsByIssuer testdouble.dropLineBreaks
         testdouble.respond testdouble.echoingRouter issuer
         (testdouble.context ∅) (testdouble.request ∅ "")
         (testdouble.emptyWorld tt)) in
  let e := errors.New ("no credentials of issuer: " +:+ testdouble.forged) in
  let msg := "could not get credentials for issuer: did:alevel=error msg=forged" in
  run testdouble.forged =
    (Some (errors.RequestError (errors.Wrap e msg) 500),
     [ {| logrus.WithError := Some e; logrus.Message := msg |} ])
  /\ occurs testdouble.forged msg = false
  /\ occurs testdouble.forged (errors.Error e) = true
  /\ occurs testdouble.forged
       (errors.Error (errors.RequestError (errors.Wrap e msg) 500)) = true
  /\ testdouble.dropLineBreaks testdouble.forged =
     testdouble.dropLineBreaks testdouble.forgedOnOneLine
  /\ run testdouble.forged <> run testdouble.forgedOnOneLine.
Proof.
  cbv zeta.
  split; [vm_compute; reflexivity|].
  split; [vm_compute; reflexivity|].
  split; [vm_compute; reflexivity|].
  split; [vm_compute; reflexivity|].
  split; [vm_compute; reflexivity|].
  intros Hsame. vm_compute in Hsame. discriminate Hsame.
Qed.

(** The in-memory service holds the sample credential: the lookup by its
    id answers 200 with that id and that credential. *)
Lemma GetCredential_returns_service_credential_witness :
  let out :=
    router.GetCredential testdouble.respond testdouble.inMemoryRouter
      (testdouble.context {[ "id" := "did:b" ]}) (testdouble.request ∅ "")
      (testdouble.emptyWorld [testdouble.sampleCredential]) in
  fst out = None
  /\ router.writer (snd out) =
       [(200,
         router.GetCredentialPayload
           {| router.GetCredentialResponse.ID := "did:b";
              router.GetCredentialResponse.Credential :=
                testdouble.sampleCredential |})].
Proof.
  cbv zeta.
  apply (GetCredential_returns_service_credential testdouble.respond testdouble.inMemoryRouter
           (testdouble.context {[ "id" := "did:b" ]}) (testdouble.request ∅ "")
           (testdouble.emptyWorld [testdouble.sampleCredential]) "did:b"
           {| credential.GetCredentialResponse.Credential :=
                testdouble.sampleCredential |}
           [testdouble.sampleCredential]).
  - vm_compute. reflexivity.
  - vm_compute. reflexivity.
Defined.

(** With the service down, an id that carries a line break is logged and
    returned with the line break in place. *)
Lemma id_failure_message_embeds_raw_id_witness :
  let ctx := testdouble.context {[ "id" := testdouble.forged ]} in
  let r := testdouble.request ∅ "" in
  let w := testdouble.emptyWorld tt in
  returnedAndLogged (router.GetCredential testdouble.respond testdouble.failingRouter ctx r w) =
    (Some (errors.RequestError
             (errors.Wrap testdouble.storageDown
                ("could not get credential with id: " +:+ testdouble.forged))
             400),
     [ {| logrus.WithError := Some testdouble.storageDown;
          logrus.Message :=
            "could not get credential with id: " +:+ testdouble.forged |} ])
  /\ returnedAndLogged (router.DeleteCredential testdouble.respond testdouble.failingRouter ctx r w) =
       (Some (errors.RequestError
                (errors.Wrap testdouble.storageDown
                   ("could not delete credential with id: " +:+ testdouble.forged))
                500),
        [ {| logrus.WithError := Some testdouble.storageDown;
             logrus.Message :=
               "could not delete credential with id: " +:+ testdouble.forged |} ])
  /\ testdouble.dropLineBreaks testdouble.forged <> testdouble.forged.
Proof.
  cbv zeta.
  destruct (id_failure_message_embeds_raw_id testdouble.respond testdouble.failingRouter
              (testdouble.context {[ "id" := testdouble.forged ]})
              (testdouble.request ∅ "") (testdouble.emptyWorld tt)
              testdouble.forged testdouble.storageDown tt) as (Hget & Hdel).
  - vm_compute. reflexivity.
  - split; [apply Hget; reflexivity|].
    split; [apply Hdel; reflexivity|].
    vm_compute. discriminate.
Defined.

(** * Further properties of the router *)

(** Splits a handler into its paths: one case for each outcome of the
    decoder, of the parameter lookups and of the service. *)
Ltac handler_paths :=
  run_handler;
  unfold freshWorld, onTopOf, returnedAndLogged;
  cbn [router.store router.calls router.logs router.writer fst snd];
  repeat
    (match goal with
     | |- context [framework.Decode ?u ?v ?r] =>
         destruct (framework.Decode u v r) eqn:?
     | |- context [framework.GetParam ?c ?p] =>
         destruct (framework.GetParam c p) eqn:?
     | |- context [framework.GetQueryValue ?r ?p] =>
         destruct (framework.GetQueryValue r p) eqn:?
     | |- context [credential.CreateCredential ?a ?b ?c] =>
         destruct (credential.CreateCredential a b c) as [[?|?] ?] eqn:?
     | |- context [credential.GetCredential ?a ?b ?c] =>
         destruct (credential.GetCredential a b c) as [[?|?] ?] eqn:?
     | |- context [credential.GetCredentialsByIssuer ?a ?b ?c] =>
         destruct (credential.GetCredentialsByIssuer a b c) as [[?|?] ?] eqn:?
     | |- context [credential.GetCredentialsBySubject ?a ?b ?c] =>
         destruct (credential.GetCredentialsBySubject a b c) as [[?|?] ?] eqn:?
     | |- context [credential.GetCredentialsBySchema ?a ?b ?c] =>
         destruct (credential.GetCredentialsBySchema a b c) as [[?|?] ?] eqn:?
     | |- context [credential.DeleteCredential ?a ?b ?c] =>
         destruct (credential.DeleteCredential a b c) as [[?|] ?] eqn:?
     end;
     cbv beta iota zeta;
     cbn [router.notNil andb orb
          router.store router.calls router.logs router.writer fst snd]);
  cbn [app].

Section RouterExtras.

Context {S : Type}.
Variable SanitizeLog : string -> string.
Variable Unmarshal : string -> error + router.CreateCredentialRequest.t.
Variable Respond : framework.RespondStep router.Payload.
Variable cr : router.CredentialRouter S.

Implicit Types (ctx : framework.Context) (r : framework.Request).
Implicit Types (w : router.World S) (e err : error) (h : Handler).

(** A handler run on a world is the same run on the world without its
    history, replayed on top of that history, when the response step
    does not look at earlier responses. *)
Lemma serve_onTopOf h ctx r w :
  ignoresEarlierResponses Respond ->
  serve SanitizeLog Unmarshal Respond cr h ctx r w =
    (fst (serve SanitizeLog Unmarshal Respond cr h ctx r
            (freshWorld (router.store w))),
     onTopOf w
       (snd (serve SanitizeLog Unmarshal Respond cr h ctx r
               (freshWorld (router.store w))))).
Proof.
  intros Hrespond.
  destruct w as [s cs ls wr].
  destruct h; unfold serve; handler_paths;
    rewrite ?app_nil_r; try reflexivity; try congruence;
    match goal with
    | |- context [Respond ?c wr ?d ?st] => rewrite (Hrespond c wr d st)
    end;
    destruct (Respond _ [] _ _) as [rerr rwr];
    cbn [fst snd router.store router.calls router.logs router.writer app];
    rewrite ?app_nil_r; reflexivity.
Qed.

(** X1. An error a handler returns is either a request error of its
    own, with a status the handler can answer with (400 for the lookup
    by id, 400 or 500 for the other handlers) and returned before the
    response step has run, or the error of the response step, run with
    the handler's success status and returned as it is. *)
Theorem handler_errors_carry_a_status h ctx r w err :
  let out := serve SanitizeLog Unmarshal Respond cr h ctx r w in
  fst out = Some err ->
  (exists status,
     errors.StatusOf err = Some status
     /\ In status (errorStatuses h)
     /\ router.writer (snd out) = router.writer w)
  \/ (exists data,
        let answer := Respond ctx (router.writer w) data (successStatus h) in
        fst answer = Some err /\ router.writer (snd out) = snd answer).
Proof.
  cbv zeta.
  destruct h; unfold serve; handler_paths;
    try (intros [= <-]; left; eexists;
         split; [reflexivity | split; [cbn; auto | reflexivity]]);
    destruct (Respond _ _ _ _) as [rerr rwr] eqn:Hanswer;
    cbn [fst snd router.writer]; intros ->;
    right;
    match type of Hanswer with
    | Respond _ _ ?data _ = _ => exists data
    end;
    cbn [successStatus]; rewrite Hanswer; split; reflexivity.
Qed.

(** X2. A handler runs the response step at most once: either it
    returns an error and leaves the writer untouched, or it has called
    the service once and then run the response step with its success
    status (201 for the creation, 200 otherwise), it returns what the
    step returns, and the writer is as the step leaves it. *)
Theorem handlers_respond_at_most_once h ctx r w :
  let out := serve SanitizeLog Unmarshal Respond cr h ctx r w in
  (router.writer (snd out) = router.writer w /\ exists err, fst out = Some err)
  \/ (exists data c,
        let answer := Respond ctx (router.writer w) data (successStatus h) in
        fst out = fst answer
        /\ router.writer (snd out) = snd answer
        /\ router.calls (snd out) = (router.calls w ++ [c])%list).
Proof.
  cbv zeta.
  destruct h; unfold serve; handler_paths;
    try (left; split; [reflexivity | eexists; reflexivity]);
    right;
    destruct (Respond _ _ _ _) as [rerr rwr] eqn:Hanswer;
    match type of Hanswer with
    | Respond _ _ ?data _ = _ => exists data
    end;
    eexists; cbn [successStatus]; rewrite Hanswer;
    repeat split; reflexivity.
Qed.


(** X4. A handler calls the Credential Service at most once, and only a
    method of its own operation: the lookups never create or delete.
    The state of the service after the handler is the state that call
    left; without a call the state is unchanged and the handler returns
    an error with status 400. *)
Theorem handlers_call_the_service_at_most_once h ctx r w :
  let out := serve SanitizeLog Unmarshal Respond cr h ctx r w in
  (router.calls (snd out) = router.calls w
   /\ router.store (snd out) = router.store w
   /\ exists err,
        fst out = Some err
        /\ errors.StatusOf err = Some http.StatusBadRequest)
  \/ (exists c,
        router.calls (snd out) = (router.calls w ++ [c])%list
        /\ mayCall h c = true
        /\ router.store (snd out) =
             perform (router.service cr) c (router.store w)).
Proof.
  cbv zeta.
  destruct h; unfold serve; handler_paths;
    try (destruct (Respond _ _ _ _) as [rerr rwr];
         cbn [fst snd router.store router.calls]);
    first [ left; split; [reflexivity|]; split; [reflexivity|];
            eexists; split; reflexivity
          | right; eexists; split; [reflexivity|]; split; [reflexivity|];
            unfold perform;
            match goal with
            | H : _ = (_, ?s) |- ?s = _ => rewrite H; reflexivity
            end ].
Qed.

(** X5. The router keeps no state of its own between requests.  With
    a response step that does not look at earlier responses: in two
    worlds where the service is in the same state, whatever was called,
    logged and written before, a handler returns the same error, leaves
    the service in the same state, and adds the same calls, log entries
    and responses to what was there. *)
Theorem handlers_do_not_depend_on_history h ctx r w w' :
  ignoresEarlierResponses Respond ->
  router.store w = router.store w' ->
  let out := serve SanitizeLog Unmarshal Respond cr h ctx r w in
  let out' := serve SanitizeLog Unmarshal Respond cr h ctx r w' in
  fst out = fst out'
  /\ router.store (snd out) = router.store (snd out')
  /\ exists calls logs responses,
       (router.calls (snd out) = (router.calls w ++ calls)%list
        /\ router.calls (snd out') = (router.calls w' ++ calls)%list)
       /\ (router.logs (snd out) = (router.logs w ++ logs)%list
           /\ router.logs (snd out') = (router.logs w' ++ logs)%list)
       /\ (router.writer (snd out) = (router.writer w ++ responses)%list
           /\ router.writer (snd out') = (router.writer w' ++ responses)%list).
Proof.
  intros Hrespond Hstore. cbv zeta.
  rewrite (serve_onTopOf h ctx r w Hrespond),
          (serve_onTopOf h ctx r w' Hrespond).
  rewrite Hstore.
  destruct (serve SanitizeLog Unmarshal Respond cr h ctx r
              (freshWorld (router.store w'))) as [res after].
  cbn [fst snd onTopOf router.store router.calls router.logs router.writer].
  split; [reflexivity|]. split; [reflexivity|].
  exists (router.calls after), (router.logs after), (router.writer after).
  repeat split; reflexivity.
Qed.

(** X6. Two requests served one after the other, with a response step
    that does not look at earlier responses: the second is served as on
    a router without history whose service is in the state the first
    request left, and its calls, log entries and responses come after
    those of the first. *)
Theorem handlers_compose h1 h2 ctx1 r1 ctx2 r2 w :
  ignoresEarlierResponses Respond ->
  let first := serve SanitizeLog Unmarshal Respond cr h1 ctx1 r1 w in
  let both :=
    router.bind (serve SanitizeLog Unmarshal Respond cr h1 ctx1 r1)
      (fun _ => serve SanitizeLog Unmarshal Respond cr h2 ctx2 r2) w in
  let second :=
    serve SanitizeLog Unmarshal Respond cr h2 ctx2 r2
      (freshWorld (router.store (snd first))) in
  fst both = fst second /\ snd both = onTopOf (snd first) (snd second).
Proof.
  intros Hrespond. cbv zeta. unfold router.bind.
  destruct (serve SanitizeLog Unmarshal Respond cr h1 ctx1 r1 w) as [res w1].
  rewrite (serve_onTopOf h2 ctx2 r2 w1 Hrespond). split; reflexivity.
Qed.

(** X7. What a handler reads of a request: the lookup and the deletion
    by id read nothing of it, the creation reads its body only, and the
    query reads the values of [issuer], [subject] and [schema] only, so
    that other query parameters and the body change nothing. *)
Theorem handlers_read_only_their_inputs ctx r r' w :
  router.GetCredential Respond cr ctx r w = router.GetCredential Respond cr ctx r' w
  /\ router.DeleteCredential Respond cr ctx r w = router.DeleteCredential Respond cr ctx r' w
  /\ (framework.Body r = framework.Body r' ->
      router.CreateCredential Unmarshal Respond cr ctx r w =
        router.CreateCredential Unmarshal Respond cr ctx r' w)
  /\ (framework.GetQueryValue r router.IssuerParam =
        framework.GetQueryValue r' router.IssuerParam ->
      framework.GetQueryValue r router.SubjectParam =
        framework.GetQueryValue r' router.SubjectParam ->
      framework.GetQueryValue r router.SchemaParam =
        framework.GetQueryValue r' router.SchemaParam ->
      router.GetCredentials SanitizeLog Respond cr ctx r w =
        router.GetCredentials SanitizeLog Respond cr ctx r' w).
Proof.
  split; [reflexivity|]. split; [reflexivity|]. split.
  - intros Hbody. unfold router.CreateCredential, framework.Decode.
    rewrite Hbody. reflexivity.
  - intros Hi Hs Hc. unfold router.GetCredentials.
    rewrite Hi, Hs, Hc.
    destruct (framework.GetQueryValue r' router.IssuerParam),
             (framework.GetQueryValue r' router.SubjectParam),
             (framework.GetQueryValue r' router.SchemaParam); reflexivity.
Qed.

(** The [required] tags accept a request exactly when issuer and
    subject are not empty and the claims are not [nil]; the optional
    fields are not looked at. *)
Lemma Validate_accepts_iff (c : router.CreateCredentialRequest.t) :
  router.CreateCredentialRequest.Validate c = None <->
  router.CreateCredentialRequest.Issuer c <> ""
  /\ router.CreateCredentialRequest.Subject c <> ""
  /\ router.CreateCredentialRequest.Data c <> None.
Proof.
  unfold router.CreateCredentialRequest.Validate.
  destruct (decide (router.CreateCredentialRequest.Issuer c = "")) as [Hi|Hi],
           (decide (router.CreateCredentialRequest.Subject c = "")) as [Hs|Hs],
           (router.CreateCredentialRequest.Data c) as [d|];
    split; try discriminate; try (intros (? & ? & ?); congruence).
  intros _. repeat split; [exact Hi | exact Hs | discriminate].
Qed.

Lemma Decode_accepts {A : Type} (unmarshal : string -> error + A)
    (validate : A -> option error) r (val : A) :
  framework.Decode unmarshal validate r = inr val ->
  unmarshal (framework.Body r) = inr val /\ validate val = None.
Proof.
  unfold framework.Decode.
  destruct (unmarshal (framework.Body r)) as [err|val']; [discriminate|].
  destruct (validate val') as [err|] eqn:Hvalid; [discriminate|].
  intros [= <-]. split; [reflexivity | exact Hvalid].
Qed.

(** X8. What [CreateCredential] hands to the Credential Service: when
    the handler makes a call, it is [CreateCredential] with the
    translation of the request the body decodes to, and that request has
    an issuer, a subject and claims. *)
Theorem CreateCredential_forwards_only_valid_requests ctx r w c :
  router.calls (snd (router.CreateCredential Unmarshal Respond cr ctx r w)) =
    (router.calls w ++ [c])%list ->
  exists request,
    Unmarshal (framework.Body r) = inr request
    /\ c = router.CallCreateCredential
             (router.CreateCredentialRequest.ToServiceRequest request)
    /\ router.CreateCredentialRequest.Issuer request <> ""
    /\ router.CreateCredentialRequest.Subject request <> ""
    /\ router.CreateCredentialRequest.Data request <> None.
Proof.
  handler_paths;
    try (destruct (Respond _ _ _ _) as [rerr rwr]; cbn [snd router.calls]);
    intros Hcalls.
  - (* the body does not decode: no call *)
    exfalso. rewrite <- (app_nil_r (router.calls w)) in Hcalls at 1.
    apply app_inv_head in Hcalls. discriminate Hcalls.
  - apply app_inv_head in Hcalls. injection Hcalls as <-.
    match goal with
    | H : framework.Decode _ _ _ = inr ?req |- _ =>
        exists req; destruct (Decode_accepts _ _ _ _ H) as [Hbody Hvalid]
    end.
    apply Validate_accepts_iff in Hvalid.
    split; [exact Hbody|]. split; [reflexivity | exact Hvalid].
  - apply app_inv_head in Hcalls. injection Hcalls as <-.
    match goal with
    | H : framework.Decode _ _ _ = inr ?req |- _ =>
        exists req; destruct (Decode_accepts _ _ _ _ H) as [Hbody Hvalid]
    end.
    apply Validate_accepts_iff in Hvalid.
    split; [exact Hbody|]. split; [reflexivity | exact Hvalid].
Qed.

(** X9. When the request decodes and the Credential Service fails to
    create the credential, [CreateCredential] returns an error with
    status 500 around the service's error, logs it once, writes no
    response, and has called the service once. *)
Theorem CreateCredential_reports_service_failure ctx r w request e s :
  framework.Decode Unmarshal router.CreateCredentialRequest.Validate r =
    inr request ->
  credential.CreateCredential (router.service cr)
    (router.CreateCredentialRequest.ToServiceRequest request)
    (router.store w) = (inl e, s) ->
  router.CreateCredential Unmarshal Respond cr ctx r w =
    (Some (errors.RequestError
             (errors.Wrap e "could not create credential")
             http.StatusInternalServerError),
     {| router.store := s;
        router.calls :=
          (router.calls w ++
           [router.CallCreateCredential
              (router.CreateCredentialRequest.ToServiceRequest request)])%list;
        router.logs :=
          (router.logs w ++
           [ {| logrus.WithError := Some e;
                logrus.Message := "could not create credential" |} ])%list;
        router.writer := router.writer w |}).
Proof.
  intros Hdec Hsvc. unfold router.CreateCredential. rewrite Hdec.
  run_handler. rewrite Hsvc. reflexivity.
Qed.

(** X10. When a list call of the Credential Service succeeds, the
    delegate responds with status 200 and the credentials the service
    returned, the same ones in the same order, and logs nothing: it runs
    the response step on that status and that list, returns what the
    step returns and leaves the writer as the step leaves it. *)
Theorem list_delegates_return_the_service_list ctx r w v got s :
  let answer :=
    Respond ctx (router.writer w)
      (router.GetCredentialsPayload
         {| router.GetCredentialsResponse.Credentials :=
              credential.GetCredentialsResponse.Credentials got |})
      http.StatusOK in
  let answered c :=
    (fst answer,
     {| router.store := s;
        router.calls := (router.calls w ++ [c])%list;
        router.logs := router.logs w;
        router.writer := snd answer |}) in
  (credential.GetCredentialsByIssuer (router.service cr)
     {| credential.GetCredentialByIssuerRequest.Issuer := v |}
     (router.store w) = (inr got, s) ->
   router.getCredentialsByIssuer SanitizeLog Respond cr v ctx r w =
     answered
       (router.CallGetCredentialsByIssuer
          {| credential.GetCredentialByIssuerRequest.Issuer := v |}))
  /\ (credential.GetCredentialsBySubject (router.service cr)
        {| credential.GetCredentialBySubjectRequest.Subject := v |}
        (router.store w) = (inr got, s) ->
      router.getCredentialsBySubject SanitizeLog Respond cr v ctx r w =
        answered
          (router.CallGetCredentialsBySubject
             {| credential.GetCredentialBySubjectRequest.Subject := v |}))
  /\ (credential.GetCredentialsBySchema (router.service cr)
        {| credential.GetCredentialBySchemaRequest.Schema := v |}
        (router.store w) = (inr got, s) ->
      router.getCredentialsBySchema SanitizeLog Respond cr v ctx r w =
        answered
          (router.CallGetCredentialsBySchema
             {| credential.GetCredentialBySchemaRequest.Schema := v |})).
Proof.
  cbv zeta. split; [|split]; intros Hsvc; run_handler; rewrite Hsvc;
    destruct (Respond _ _ _ _) as [rerr rwr]; reflexivity.
Qed.

(** X11. When the id is present and the Credential Service deletes the
    credential, [DeleteCredential] responds with status 200 and an empty
    payload and logs nothing: it runs the response step on that status
    and the [nil] payload, returns what the step returns and leaves the
    writer as the step leaves it.  When the service fails, the response
    step is not run: the writer is untouched and the service is left as
    the failed call left it. *)
Theorem DeleteCredential_answers_after_the_service ctx r w id s :
  framework.GetParam ctx router.IDParam = Some id ->
  let c :=
    router.CallDeleteCredential
      {| credential.DeleteCredentialRequest.ID := id |} in
  let answer :=
    Respond ctx (router.writer w) router.NilPayload http.StatusOK in
  (credential.DeleteCredential (router.service cr)
     {| credential.DeleteCredentialRequest.ID := id |} (router.store w) =
     (None, s) ->
   router.DeleteCredential Respond cr ctx r w =
     (fst answer,
      {| router.store := s;
         router.calls := (router.calls w ++ [c])%list;
         router.logs := router.logs w;
         router.writer := snd answer |}))
  /\ (forall e,
        credential.DeleteCredential (router.service cr)
          {| credential.DeleteCredentialRequest.ID := id |} (router.store w) =
          (Some e, s) ->
        let after := snd (router.DeleteCredential Respond cr ctx r w) in
        router.writer after = router.writer w
        /\ router.store after = s
        /\ router.calls after = (router.calls w ++ [c])%list).
Proof.
  intros Hid. cbv zeta. unfold router.DeleteCredential. rewrite Hid.
  split; [|intros e]; intros Hsvc; run_handler; rewrite Hsvc.
  - destruct (Respond _ _ _ _) as [rerr rwr]. reflexivity.
  - repeat split; reflexivity.
Qed.

(** X12. [NewCredentialRouter] returns a router exactly when the value
    it is given has the credential service as its dynamic type, and
    exactly then the error is [nil]; the router holds the pointer that
    value holds.  A [nil] pointer to a credential service passes both
    checks: the constructor returns a router without service and no
    error.  Given the [nil] interface or a service of another type it
    returns no router and an error that says which of the two it was,
    naming the type. *)
Theorem NewCredentialRouter_accepts_only_a_credential_service
    (s : option (svcframework.Service S)) :
  let res := router.NewCredentialRouter s in
  (is_Some (fst res) <-> exists pointer, s = Some (svcframework.Credential pointer))
  /\ (snd res = None <-> is_Some (fst res))
  /\ (forall cr',
        fst res = Some (router.WithService cr') <->
        s = Some (svcframework.Credential (Some (router.service cr'))))
  /\ (fst res = Some router.WithNilService <->
      s = Some (svcframework.Credential None))
  /\ (forall err,
        snd res = Some err ->
        (s = None /\ errors.Error err = "service cannot be nil")
        \/ (exists type,
              s = Some (svcframework.Other type)
              /\ errors.Error err =
                   "could not create credential router with service type: "
                   +:+ type)).
Proof.
  cbv zeta.
  destruct s as [[[svc|]|type]|]; cbn [router.NewCredentialRouter fst snd].
  - (* a credential service *)
    split; [split; [intros _; eexists; reflexivity | intros _; eexists; reflexivity]|].
    split; [split; [intros _; eexists; reflexivity | reflexivity]|].
    split; [intros [svc']; cbn [router.service]; split; congruence|].
    split; [split; discriminate|].
    intros err Herr. discriminate Herr.
  - (* the nil pointer to a credential service *)
    split; [split; [intros _; eexists; reflexivity | intros _; eexists; reflexivity]|].
    split; [split; [intros _; eexists; reflexivity | reflexivity]|].
    split; [intros cr'; split; discriminate|].
    split; [split; reflexivity|].
    intros err Herr. discriminate Herr.
  - (* a service of another type *)
    split; [split; [intros [x Hx]; discriminate Hx
                   | intros [pointer Hp]; discriminate Hp]|].
    split; [split; [discriminate | intros [x Hx]; discriminate Hx]|].
    split; [intros cr'; split; discriminate|].
    split; [split; discriminate|].
    intros err [= <-]. right. exists type. split; reflexivity.
  - (* the nil interface *)
    split; [split; [intros [x Hx]; discriminate Hx
                   | intros [pointer Hp]; discriminate Hp]|].
    split; [split; [discriminate | intros [x Hx]; discriminate Hx]|].
    split; [intros cr'; split; discriminate|].
    split; [split; discriminate|].
    intros err [= <-]. left. split; reflexivity.
Qed.

End RouterExtras.

(** * Instances of the further properties *)

(** With the service down, the error of the lookup by id is the
    router's own and carries 400; with the service up and a response
    step that fails, the error of the lookup is that of the step. *)
Lemma handler_errors_carry_a_status_witness :
  (exists status,
     errors.StatusOf
       (errors.RequestError
          (errors.Wrap testdouble.storageDown
             "could not get credential with id: cred-1") 400) = Some status
     /\ In status [400])
  /\ fst (router.GetCredential testdouble.respondAndFail
            testdouble.inMemoryRouter
            (testdouble.context {[ "id" := "did:b" ]}) (testdouble.request ∅ "")
            (testdouble.emptyWorld [testdouble.sampleCredential])) =
     Some testdouble.connectionLost.
Proof.
  split.
  - destruct (handler_errors_carry_a_status testdouble.dropLineBreaks
                testdouble.unmarshal testdouble.respond
                testdouble.failingRouter GetCredentialHandler
                (testdouble.context {[ "id" := "cred-1" ]})
                (testdouble.request ∅ "") (testdouble.emptyWorld tt)
                (errors.RequestError
                   (errors.Wrap testdouble.storageDown
                      "could not get credential with id: cred-1") 400))
      as [(status & Hstatus & Hin & _) | (data & Hstep & _)].
    + vm_compute. reflexivity.
    + exists status. split; [exact Hstatus | exact Hin].
    + discriminate Hstep.
  - destruct (handler_errors_carry_a_status testdouble.dropLineBreaks
                testdouble.unmarshal testdouble.respondAndFail
                testdouble.inMemoryRouter GetCredentialHandler
                (testdouble.context {[ "id" := "did:b" ]})
                (testdouble.request ∅ "")
                (testdouble.emptyWorld [testdouble.sampleCredential])
                testdouble.connectionLost)
      as [(status & Hstatus & _) | _].
    + vm_compute. reflexivity.
    + discriminate Hstatus.
    + vm_compute. reflexivity.
Defined.

(** The lookup of the sample credential returns the same on a router
    without history and on one that has served a query before. *)
Lemma handlers_do_not_depend_on_history_witness :
  let ctx := testdouble.context {[ "id" := "did:b" ]} in
  let r := testdouble.request ∅ "" in
  let w := testdouble.emptyWorld [testdouble.sampleCredential] in
  let w' :=
    {| router.store := [testdouble.sampleCredential];
       router.calls :=
         [router.CallGetCredentialsByIssuer
            {| credential.GetCredentialByIssuerRequest.Issuer := "did:a" |}];
       router.logs := [];
       router.writer :=
         [(200,
           router.GetCredentialsPayload
             {| router.GetCredentialsResponse.Credentials :=
                  [testdouble.sampleCredential] |})] |} in
  ignoresEarlierResponses testdouble.respond
  /\ fst (router.GetCredential testdouble.respond testdouble.inMemoryRouter
            ctx r w) =
     fst (router.GetCredential testdouble.respond testdouble.inMemoryRouter
            ctx r w').
Proof.
  intros ctx r w w'.
  assert (Hrespond : ignoresEarlierResponses testdouble.respond).
  { intros c wr data statusCode. reflexivity. }
  split; [exact Hrespond|].
  destruct (handlers_do_not_depend_on_history testdouble.dropLineBreaks
              testdouble.unmarshal testdouble.respond testdouble.inMemoryRouter
              GetCredentialHandler ctx r w w') as [Hsame _].
  - exact Hrespond.
  - reflexivity.
  - exact Hsame.
Defined.

(** The creation of the sample credential followed by its lookup, on
    the in-memory service: the lookup finds what the creation stored,
    and the two responses are written in that order. *)
Lemma handlers_compose_witness :
  let both :=
    router.bind
      (router.CreateCredential testdouble.unmarshal testdouble.respond
         testdouble.inMemoryRouter (testdouble.context ∅)
         (testdouble.request ∅ "did:a|did:b"))
      (fun _ =>
         router.GetCredential testdouble.respond testdouble.inMemoryRouter
           (testdouble.context {[ "id" := "did:b" ]}) (testdouble.request ∅ ""))
      (testdouble.emptyWorld []) in
  fst both = None
  /\ router.writer (snd both) =
       [(201,
         router.CreateCredentialPayload
           {| router.CreateCredentialResponse.Credential :=
                testdouble.sampleCredential |});
        (200,
         router.GetCredentialPayload
           {| router.GetCredentialResponse.ID := "did:b";
              router.GetCredentialResponse.Credential :=
                testdouble.sampleCredential |})].
Proof.
  cbv zeta.
  destruct (handlers_compose testdouble.dropLineBreaks testdouble.unmarshal
              testdouble.respond testdouble.inMemoryRouter
              CreateCredentialHandler GetCredentialHandler
              (testdouble.context ∅) (testdouble.request ∅ "did:a|did:b")
              (testdouble.context {[ "id" := "did:b" ]})
              (testdouble.request ∅ "") (testdouble.emptyWorld []))
    as [Hfst Hsnd].
  - intros c wr data statusCode. reflexivity.
  - unfold serve in Hfst, Hsnd. split.
    + rewrite Hfst. vm_compute. reflexivity.
    + rewrite Hsnd. vm_compute. reflexivity.
Defined.

(** The creation of the sample credential hands the service the
    translation of the sample request. *)
Lemma CreateCredential_forwards_only_valid_requests_witness :
  exists request,
    testdouble.unmarshal "did:a|did:b" = inr request
    /\ router.CallCreateCredential
         (router.CreateCredentialRequest.ToServiceRequest
            testdouble.sampleRequest) =
       router.CallCreateCredential
         (router.CreateCredentialRequest.ToServiceRequest request)
    /\ router.CreateCredentialRequest.Issuer request <> ""
    /\ router.CreateCredentialRequest.Subject request <> ""
    /\ router.CreateCredentialRequest.Data request <> None.
Proof.
  apply (CreateCredential_forwards_only_valid_requests testdouble.unmarshal
           testdouble.respond testdouble.inMemoryRouter (testdouble.context ∅)
           (testdouble.request ∅ "did:a|did:b") (testdouble.emptyWorld [])).
  vm_compute. reflexivity.
Defined.

(** With the service down, the creation of the sample credential answers
    500 and writes nothing. *)
Lemma CreateCredential_reports_service_failure_witness :
  router.CreateCredential testdouble.unmarshal testdouble.respond testdouble.failingRouter
    (testdouble.context ∅) (testdouble.request ∅ "did:a|did:b")
    (testdouble.emptyWorld tt) =
    (Some (errors.RequestError
             (errors.Wrap testdouble.storageDown "could not create credential")
             500),
     {| router.store := tt;
        router.calls :=
          [router.CallCreateCredential
             (router.CreateCredentialRequest.ToServiceRequest
                testdouble.sampleRequest)];
        router.logs :=
          [ {| logrus.WithError := Some testdouble.storageDown;
               logrus.Message := "could not create credential" |} ];
        router.writer := [] |}).
Proof.
  apply (CreateCredential_reports_service_failure testdouble.unmarshal
           testdouble.respond testdouble.failingRouter (testdouble.context ∅)
           (testdouble.request ∅ "did:a|did:b") (testdouble.emptyWorld tt)
           testdouble.sampleRequest testdouble.storageDown tt).
  - vm_compute. reflexivity.
  - reflexivity.
Defined.

(** The query by issuer [did:a] answers 200 with the sample credential. *)
Lemma list_delegates_return_the_service_list_witness :
  router.getCredentialsByIssuer testdouble.dropLineBreaks
    testdouble.respond testdouble.inMemoryRouter "did:a" (testdouble.context ∅)
    (testdouble.request {[ "issuer" := "did:a" ]} "")
    (testdouble.emptyWorld [testdouble.sampleCredential]) =
    (None,
     {| router.store := [testdouble.sampleCredential];
        router.calls :=
          [router.CallGetCredentialsByIssuer
             {| credential.GetCredentialByIssuerRequest.Issuer := "did:a" |}];
        router.logs := [];
        router.writer :=
          [(200,
            router.GetCredentialsPayload
              {| router.GetCredentialsResponse.Credentials :=
                   [testdouble.sampleCredential] |})] |}).
Proof.
  destruct (list_delegates_return_the_service_list testdouble.dropLineBreaks
              testdouble.respond testdouble.inMemoryRouter (testdouble.context ∅)
              (testdouble.request {[ "issuer" := "did:a" ]} "")
              (testdouble.emptyWorld [testdouble.sampleCredential]) "did:a"
              {| credential.GetCredentialsResponse.Credentials :=
                   [testdouble.sampleCredential] |}
              [testdouble.sampleCredential]) as [Hissuer _].
  apply Hissuer. vm_compute. reflexivity.
Defined.

(** [Delete("did:b")] on the service that holds the sample credential:
    200, an empty payload, and the credential is gone. *)
Lemma DeleteCredential_answers_after_the_service_witness :
  router.DeleteCredential testdouble.respond testdouble.inMemoryRouter
    (testdouble.context {[ "id" := "did:b" ]}) (testdouble.request ∅ "")
    (testdouble.emptyWorld [testdouble.sampleCredential]) =
    (None,
     {| router.store := [];
        router.calls :=
          [router.CallDeleteCredential
             {| credential.DeleteCredentialRequest.ID := "did:b" |}];
        router.logs := [];
        router.writer := [(200, router.NilPayload)] |}).
Proof.
  destruct (DeleteCredential_answers_after_the_service
              testdouble.respond testdouble.inMemoryRouter
              (testdouble.context {[ "id" := "did:b" ]})
              (testdouble.request ∅ "")
              (testdouble.emptyWorld [testdouble.sampleCredential]) "did:b" [])
    as [Hdeleted _].
  - vm_compute. reflexivity.
  - apply Hdeleted. vm_compute. reflexivity.
Defined.
